(** * HCL launcher core: a shallow embedding of [src/core/JavaLauncher.js]
      and of [src/core/GameManager.js]

    Conventions of the embedding.

    - JavaScript strings are 8-bit strings ([string]); the character
      classes of the regular expressions ([\s], [.]), [toLowerCase] and
      [trim] are the ASCII ones.  The texts the launcher inspects (version
      banners, process output, hexadecimal digests) are ASCII.
    - The numbers the launcher computes with (memory sizes, parsed
      versions, process ids, time stamps) are integers and are modelled by
      [Z], with [None] for the [NaN] of [parseInt]; the value of a string
      compared with a number ([ToNumber]) is a rational, an infinity or
      [NaN].  [Z] is exact where a JavaScript number is a double: the two
      agree on the integers below [2^53] in magnitude, which [parseInt]
      reads without rounding and [String] prints with every digit (from
      [10^21] on it prints an exponent).  A statement that relates two
      renderings of one number is stated within that range.
    - [undefined]/[null] fields are [option]s; [||] and [!] follow
      JavaScript truthiness ([""], [0], [NaN], [undefined] are falsy).
    - The object [this] is the record [Launcher]; what a method does to the
      outside (emitted events, spawned processes, signals, created
      directories) is appended to a trace of [Effect]s.  Console logging is
      not part of the trace.
    - What the launcher asks of the operating system and of its
      collaborators (the command runner, the glob expansion, the
      configuration, the manifest files, the [path] module) is the
      read-only record [Env]; an [await] is answered in place.  The record
      holds the answers of commands that exit: [exec] is called without a
      time limit, and a command that never exits leaves its caller pending,
      which a run of the embedding does not show.  What is proved of a
      scan is proved of a scan all of whose commands exit.
    - A request may lack its [account] or its [version], and the game
      manager may be given a config manager without [getGameDirectory];
      both are [option]s, and reading from or calling what is missing
      throws the [TypeError] JavaScript throws. *)

From Stdlib Require Import ZArith String Ascii List Lia Bool QArith Sorted.
From Stdlib Require Import DecimalString DecimalZ DecimalPos.
From stdpp Require Import base list strings gmap.

Open Scope string_scope.
Open Scope Z_scope.

(* ================================================================== *)
(** ** JavaScript text primitives *)
(* ================================================================== *)

Module JS.

Definition code (c : ascii) : Z := Z.of_N (N_of_ascii c).

Definition dquote : ascii := ascii_of_nat 34.
Definition LF : ascii := ascii_of_nat 10.
Definition CR : ascii := ascii_of_nat 13.

(** [.] of a regular expression without the [s] flag. *)
Definition is_dot (c : ascii) : bool :=
  negb (Ascii.eqb c LF || Ascii.eqb c CR).

(** [\s], and the white space that [trim] and [parseInt] skip. *)
Definition is_space (c : ascii) : bool :=
  let n := code c in
  (9 <=? n) && (n <=? 13) || (n =? 32).

Definition is_digit (c : ascii) : bool :=
  let n := code c in (48 <=? n) && (n <=? 57).

Definition to_lower_char (c : ascii) : ascii :=
  let n := code c in
  if (65 <=? n) && (n <=? 90) then ascii_of_N (Z.to_N (n + 32)) else c.

(** [s.toLowerCase()] *)
Fixpoint toLowerCase (s : string) : string :=
  match s with
  | EmptyString => EmptyString
  | String a s' => String (to_lower_char a) (toLowerCase s')
  end.

Fixpoint startsWith (s p : string) {struct p} : bool :=
  match p, s with
  | EmptyString, _ => true
  | String a p', String b s' => Ascii.eqb a b && startsWith s' p'
  | String _ _, EmptyString => false
  end.

(** [s.includes(p)] *)
Fixpoint includes (s p : string) : bool :=
  startsWith s p ||
  match s with
  | EmptyString => false
  | String _ s' => includes s' p
  end.

(** [s.split(sep)] for a one-character separator. *)
Fixpoint split (sep : ascii) (s : string) : list string :=
  match s with
  | EmptyString => [EmptyString]
  | String a s' =>
      if Ascii.eqb a sep then EmptyString :: split sep s'
      else match split sep s' with
           | h :: t => String a h :: t
           | [] => [String a EmptyString]
           end
  end.

(** [parts.join(sep)] *)
Fixpoint join (sep : string) (parts : list string) : string :=
  match parts with
  | [] => EmptyString
  | [p] => p
  | p :: ps => p ++ sep ++ join sep ps
  end.

Fixpoint trimStart (s : string) : string :=
  match s with
  | String a s' => if is_space a then trimStart s' else s
  | EmptyString => EmptyString
  end.

Fixpoint rev_string (s acc : string) : string :=
  match s with
  | EmptyString => acc
  | String a s' => rev_string s' (String a acc)
  end.

Definition trimEnd (s : string) : string :=
  rev_string (trimStart (rev_string s EmptyString)) EmptyString.

(** [s.trim()] *)
Definition trim (s : string) : string := trimEnd (trimStart s).

(** Truthiness of a string value and of an optional string field. *)
Definition truthy (s : string) : bool :=
  match s with EmptyString => false | _ => true end.

Definition truthy_opt (o : option string) : bool :=
  match o with Some s => truthy s | None => false end.

(** [o || d] for an optional string field [o]. *)
Definition or_else (o : option string) (d : string) : string :=
  match o with
  | Some s => if truthy s then s else d
  | None => d
  end.

(** *** Numbers *)

Definition digit_value (c : ascii) : option Z :=
  let n := code c in
  if (48 <=? n) && (n <=? 57) then Some (n - 48)
  else if (97 <=? n) && (n <=? 122) then Some (n - 87)
  else if (65 <=? n) && (n <=? 90) then Some (n - 55)
  else None.

(** The longest prefix of digits of [radix], read most significant first:
    the number of digits read, their value, and what follows them. *)
Fixpoint read_digits (radix : Z) (s : string) (n : nat) (acc : Z)
  : nat * Z * string :=
  match s with
  | EmptyString => (n, acc, s)
  | String a s' =>
      match digit_value a with
      | Some d => if d <? radix then read_digits radix s' (S n) (acc * radix + d)
                  else (n, acc, s)
      | None => (n, acc, s)
      end
  end.

Definition read_sign (s : string) : bool * string :=
  match s with
  | String a s' =>
      if Ascii.eqb a "-" then (true, s')
      else if Ascii.eqb a "+" then (false, s')
      else (false, s)
  | EmptyString => (false, s)
  end.

Definition signed (neg : bool) (v : Z) : Z := if neg then - v else v.

(** The digits of [parseInt] after the sign: hexadecimal after [0x] or
    [0X], decimal otherwise; [None] when there is no digit. *)
Definition parse_magnitude (s : string) : option Z :=
  let '(radix, digits) :=
    match s with
    | String z (String x t) =>
        if Ascii.eqb z "0" && (Ascii.eqb x "x" || Ascii.eqb x "X")
        then (16, t) else (10, s)
    | _ => (10, s)
    end in
  match read_digits radix digits O 0 with
  | (O, _, _) => None
  | (_, v, _) => Some v
  end.

(** [parseInt(s)] without a radix argument; [None] is [NaN].  The value
    is the exact integer; JavaScript rounds it to a double from [2^53]
    on. *)
Definition parseInt (s : string) : option Z :=
  let '(neg, s1) := read_sign (trimStart s) in
  match parse_magnitude s1 with
  | Some v => Some (signed neg v)
  | None => None
  end.

(** [n.toString()] for an integer [n] that is a double and is below
    [10^21] in magnitude, where JavaScript prints every digit; every integer
    below [2^53] in magnitude is one. *)
Definition number_to_string (n : Z) : string :=
  DecimalString.NilZero.string_of_int (Z.to_int n).

(** The value of a string under [ToNumber], which [<] applies to a string
    operand compared with a number. *)
Inductive number : Type :=
| NaN
| Infinity (negative : bool)
| Finite (q : Q).

Definition pow10 (e : Z) : Q :=
  if 0 <=? e then inject_Z (10 ^ e) else Qinv (inject_Z (10 ^ (- e))).

Definition read_exponent (s : string) : option Z :=
  match s with
  | EmptyString => Some 0
  | String e s1 =>
      if Ascii.eqb e "e" || Ascii.eqb e "E" then
        let '(neg, s2) := read_sign s1 in
        match read_digits 10 s2 O 0 with
        | (S _, v, EmptyString) => Some (signed neg v)
        | _ => None
        end
      else None
  end.

(** StrDecimalLiteral without its sign:
    digits [. digits] [exponent], or [.] digits [exponent]. *)
Definition read_decimal (s : string) : option Q :=
  let '(ni, vi, s1) := read_digits 10 s O 0 in
  let '(nf, vf, s2) :=
    match s1 with
    | String d t => if Ascii.eqb d "." then read_digits 10 t O 0 else (O, 0, s1)
    | EmptyString => (O, 0, s1)
    end in
  match ni, nf, s1 with
  | O, O, _ => None
  | _, _, _ =>
      match read_exponent s2 with
      | Some e =>
          Some (Qmult (Qplus (inject_Z vi)
                             (Qmult (inject_Z vf) (pow10 (- Z.of_nat nf))))
                      (pow10 e))
      | None => None
      end
  end.

Definition read_radix_literal (radix : Z) (s : string) : number :=
  match read_digits radix s O 0 with
  | (S _, v, EmptyString) => Finite (inject_Z v)
  | _ => NaN
  end.

(** [Number(s)] *)
Definition ToNumber (s : string) : number :=
  let t := trim s in
  match t with
  | EmptyString => Finite 0
  | String z (String x r) =>
      if Ascii.eqb z "0" && (Ascii.eqb x "x" || Ascii.eqb x "X")
      then read_radix_literal 16 r
      else if Ascii.eqb z "0" && (Ascii.eqb x "o" || Ascii.eqb x "O")
      then read_radix_literal 8 r
      else if Ascii.eqb z "0" && (Ascii.eqb x "b" || Ascii.eqb x "B")
      then read_radix_literal 2 r
      else
        let '(neg, u) := read_sign t in
        if String.eqb u "Infinity" then Infinity neg
        else match read_decimal u with
             | Some q => Finite (if neg then Qopp q else q)
             | None => NaN
             end
  | _ =>
      let '(neg, u) := read_sign t in
      match read_decimal u with
      | Some q => Finite (if neg then Qopp q else q)
      | None => NaN
      end
  end.

(** [x < k] and [x >= k] for a number [x] and an integer constant [k]. *)
Definition number_lt (x : number) (k : Z) : bool :=
  match x with
  | NaN => false
  | Infinity neg => neg
  | Finite q => match Qcompare q (inject_Z k) with Lt => true | _ => false end
  end.

Definition number_ge (x : number) (k : Z) : bool :=
  match x with
  | NaN => false
  | Infinity neg => negb neg
  | Finite q => match Qcompare q (inject_Z k) with Lt => false | _ => true end
  end.

End JS.


(* ================================================================== *)
(** ** Regular expressions: the fragment the launcher's patterns use *)
(* ================================================================== *)

Module Regex.

(** A pattern is a sequence of items; an item is a character class, taken
    once or one-or-more times (greedy, with backtracking), inside capture
    group [grp] (0: outside every group).  Every group of the launcher's
    patterns is one run of consecutive items. *)
Inductive quant : Type := One | Plus.

Record item : Type := Item { cls : ascii -> bool; qnt : quant; grp : nat }.

Definition regex : Type := list item.

(** The characters a match consumed, each with the group of its item. *)
Definition tagged : Type := list (nat * ascii).

(** [c+]: the longest run first, then shorter ones, each followed by the
    rest of the pattern [k]. *)
Fixpoint greedy (c : ascii -> bool) (g : nat)
    (k : tagged -> string -> option (tagged * string))
    (acc : tagged) (s : string) : option (tagged * string) :=
  match s with
  | EmptyString => None
  | String a s' =>
      if c a then
        match greedy c g k (acc ++ [(g, a)])%list s' with
        | Some r => Some r
        | None => k (acc ++ [(g, a)])%list s'
        end
      else None
  end.

(** Match the pattern at the start of [s]. *)
Fixpoint match_here (r : regex) (acc : tagged) (s : string)
  : option (tagged * string) :=
  match r with
  | [] => Some (acc, s)
  | it :: r' =>
      match qnt it with
      | One =>
          match s with
          | String a s' =>
              if cls it a then match_here r' (acc ++ [(grp it, a)])%list s'
              else None
          | EmptyString => None
          end
      | Plus => greedy (cls it) (grp it) (match_here r') acc s
      end
  end.

(** The leftmost match: what precedes it, the match, what follows it. *)
Fixpoint exec_from (r : regex) (pre : string) (s : string)
  : option (string * tagged * string) :=
  match match_here r [] s with
  | Some (m, rest) => Some (pre, m, rest)
  | None =>
      match s with
      | EmptyString => None
      | String a s' => exec_from r (pre ++ String a EmptyString) s'
      end
  end.

Definition exec (r : regex) (s : string) : option (string * tagged * string) :=
  exec_from r EmptyString s.

(** [r.test(s)] for a pattern without the [g] flag. *)
Definition test (r : regex) (s : string) : bool :=
  match exec r s with Some _ => true | None => false end.

Fixpoint text_of (m : tagged) : string :=
  match m with
  | [] => EmptyString
  | (_, a) :: m' => String a (text_of m')
  end.

(** The text captured by group [g]. *)
Fixpoint group (g : nat) (m : tagged) : string :=
  match m with
  | [] => EmptyString
  | (h, a) :: m' => if Nat.eqb h g then String a (group g m') else group g m'
  end.

(** A literal piece of a pattern. *)
Fixpoint lit (s : string) : regex :=
  match s with
  | EmptyString => []
  | String a s' => Item (Ascii.eqb a) One 0 :: lit s'
  end.

(** A pattern written with ordinary characters and [.] only. *)
Fixpoint of_pattern (s : string) : regex :=
  match s with
  | EmptyString => []
  | String a s' =>
      (if Ascii.eqb a "." then Item JS.is_dot One 0
       else Item (Ascii.eqb a) One 0) :: of_pattern s'
  end.

(** [(.{n})] as capture group [g]. *)
Definition dots (n g : nat) : regex := repeat (Item JS.is_dot One g) n.

(** The replacement text of [String.prototype.replace] (GetSubstitution)
    for a match with numbered groups [caps]: [$$], [$&], [$`], [$'],
    [$n] and [$nn]; any other [$] stands for itself. *)
Definition capture (caps : list string) (n : Z) : option string :=
  if (1 <=? n) && (n <=? Z.of_nat (length caps)) then caps !! (Z.to_nat (n - 1))
  else None.

Definition digit_of (c : ascii) : option Z :=
  if JS.is_digit c then Some (JS.code c - 48) else None.

Fixpoint substitution (matched pre post : string) (caps : list string)
    (tmpl : string) : string :=
  match tmpl with
  | EmptyString => EmptyString
  | String a t1 =>
      if negb (Ascii.eqb a "$") then String a (substitution matched pre post caps t1)
      else
        match t1 with
        | EmptyString => String a EmptyString
        | String b t2 =>
            if Ascii.eqb b "$" then String "$" (substitution matched pre post caps t2)
            else if Ascii.eqb b "&" then matched ++ substitution matched pre post caps t2
            else if Ascii.eqb b "`" then pre ++ substitution matched pre post caps t2
            else if Ascii.eqb b "'" then post ++ substitution matched pre post caps t2
            else
              match digit_of b with
              | None => String a (substitution matched pre post caps t1)
              | Some d1 =>
                  let one :=
                    match capture caps d1 with
                    | Some c => c ++ substitution matched pre post caps t2
                    | None => String a (substitution matched pre post caps t1)
                    end in
                  match t2 with
                  | EmptyString => one
                  | String c t3 =>
                      match digit_of c with
                      | None => one
                      | Some d2 =>
                          match capture caps (10 * d1 + d2) with
                          | Some cc => cc ++ substitution matched pre post caps t3
                          | None => one
                          end
                      end
                  end
              end
        end
  end.

(** [s.replace(r, tmpl)] for a pattern without the [g] flag and with
    [ngroups] capture groups: the leftmost match only. *)
Definition replace (r : regex) (ngroups : nat) (tmpl : string) (s : string)
  : string :=
  match exec r s with
  | None => s
  | Some (pre, m, post) =>
      let caps := map (fun g => group g m) (seq 1 ngroups) in
      pre ++ substitution (text_of m) pre post caps tmpl ++ post
  end.

(** [s.replace(/lit/g, tmpl)]: every match of a literal, non-empty
    pattern, in turn, left to right, without overlap.  [done] is the part
    of [s] already passed; [fuel] bounds the number of characters left. *)
Fixpoint replace_all_from (fuel : nat) (r : regex) (tmpl : string)
    (done s : string) : string :=
  match fuel with
  | O => s
  | S fuel' =>
      match match_here r [] s with
      | Some ((_ :: _) as m, post) =>
          substitution (text_of m) done post [] tmpl ++
          replace_all_from fuel' r tmpl (done ++ text_of m) post
      | _ =>
          match s with
          | EmptyString => EmptyString
          | String a s' =>
              String a (replace_all_from fuel' r tmpl
                          (done ++ String a EmptyString) s')
          end
      end
  end.

Definition replace_all (r : regex) (tmpl : string) (s : string) : string :=
  replace_all_from (S (String.length s)) r tmpl EmptyString s.

End Regex.


(* ================================================================== *)
(** ** [crypto.createHash('md5')]: MD5 (RFC 1321) *)
(* ================================================================== *)

Module MD5.

Definition w32 (x : Z) : Z := x mod 2 ^ 32.

Definition rotl (x n : Z) : Z :=
  w32 (Z.lor (Z.shiftl x n) (Z.shiftr (w32 x) (32 - n))).

Definition K : list Z :=
  [3614090360; 3905402710; 606105819; 3250441966;
   4118548399; 1200080426; 2821735955; 4249261313;
   1770035416; 2336552879; 4294925233; 2304563134;
   1804603682; 4254626195; 2792965006; 1236535329;
   4129170786; 3225465664; 643717713; 3921069994;
   3593408605; 38016083; 3634488961; 3889429448;
   568446438; 3275163606; 4107603335; 1163531501;
   2850285829; 4243563512; 1735328473; 2368359562;
   4294588738; 2272392833; 1839030562; 4259657740;
   2763975236; 1272893353; 4139469664; 3200236656;
   681279174; 3936430074; 3572445317; 76029189;
   3654602809; 3873151461; 530742520; 3299628645;
   4096336452; 1126891415; 2878612391; 4237533241;
   1700485571; 2399980690; 4293915773; 2240044497;
   1873313359; 4264355552; 2734768916; 1309151649;
   4149444226; 3174756917; 718787259; 3951481745].

Definition shift_amounts : list Z :=
  [7; 12; 17; 22; 7; 12; 17; 22; 7; 12; 17; 22; 7; 12; 17; 22;
   5; 9; 14; 20; 5; 9; 14; 20; 5; 9; 14; 20; 5; 9; 14; 20;
   4; 11; 16; 23; 4; 11; 16; 23; 4; 11; 16; 23; 4; 11; 16; 23;
   6; 10; 15; 21; 6; 10; 15; 21; 6; 10; 15; 21; 6; 10; 15; 21].

Definition nth_Z (l : list Z) (i : nat) : Z := nth i l 0.

(** The bytes of the message, then [0x80], zeros up to 56 modulo 64, and
    the bit length on 64 bits, least significant byte first. *)
Definition le_bytes (n : nat) (x : Z) : list Z :=
  map (fun i => Z.shiftr x (8 * Z.of_nat i) mod 256) (seq 0 n).

Definition pad (msg : list Z) : list Z :=
  let len := Z.of_nat (length msg) in
  let zeros := Z.to_nat ((55 - len) mod 64) in
  (msg ++ [128] ++ repeat 0 zeros ++ le_bytes 8 ((8 * len) mod 2 ^ 64))%list.

Definition word_of (bs : list Z) : Z :=
  nth_Z bs 0 + 256 * nth_Z bs 1 + 65536 * nth_Z bs 2 + 16777216 * nth_Z bs 3.

Definition words_of_block (block : list Z) : list Z :=
  map (fun j => word_of (firstn 4 (skipn (4 * j) block))) (seq 0 16).

Definition state : Type := Z * Z * Z * Z.

Definition step (M : list Z) (st : state) (i : nat) : state :=
  let '(A, B, C, D) := st in
  let '(F, g) :=
    if (i <? 16)%nat then
      (Z.lor (Z.land B C) (Z.land (Z.lxor B 4294967295) D), i)
    else if (i <? 32)%nat then
      (Z.lor (Z.land D B) (Z.land (Z.lxor D 4294967295) C), (5 * i + 1) mod 16)%nat
    else if (i <? 48)%nat then
      (Z.lxor (Z.lxor B C) D, (3 * i + 5) mod 16)%nat
    else
      (Z.lxor C (Z.lor B (Z.lxor D 4294967295)), (7 * i) mod 16)%nat in
  let F' := w32 (F + A + nth_Z K i + nth_Z M g) in
  (D, w32 (B + rotl F' (nth_Z shift_amounts i)), B, C).

Definition compress (st : state) (block : list Z) : state :=
  let M := words_of_block block in
  let '(A, B, C, D) := fold_left (step M) (seq 0 64) st in
  let '(a0, b0, c0, d0) := st in
  (w32 (a0 + A), w32 (b0 + B), w32 (c0 + C), w32 (d0 + D)).

Fixpoint blocks (n : nat) (bs : list Z) (st : state) : state :=
  match n with
  | O => st
  | S n' => blocks n' (skipn 64 bs) (compress st (firstn 64 bs))
  end.

Definition init : state := (1732584193, 4023233417, 2562383102, 271733878).

Definition digest (msg : list Z) : list Z :=
  let p := pad msg in
  let '(a, b, c, d) := blocks (length p / 64)%nat p init in
  (le_bytes 4 a ++ le_bytes 4 b ++ le_bytes 4 c ++ le_bytes 4 d)%list.

Definition hex_digit (n : Z) : ascii :=
  if n <? 10 then ascii_of_N (Z.to_N (48 + n)) else ascii_of_N (Z.to_N (87 + n)).

Fixpoint hex (bs : list Z) : string :=
  match bs with
  | [] => EmptyString
  | b :: bs' => String (hex_digit (b / 16)) (String (hex_digit (b mod 16)) (hex bs'))
  end.

Fixpoint bytes_of (s : string) : list Z :=
  match s with
  | EmptyString => []
  | String a s' => JS.code a :: bytes_of s'
  end.

(** [crypto.createHash('md5').update(s).digest('hex')] *)
Definition md5_hex (s : string) : string := hex (digest (bytes_of s)).

End MD5.


(* ================================================================== *)
(** ** The POSIX flavour of Node's [path] module *)
(* ================================================================== *)

Module PosixPath.

Fixpoint normalize_rev (allowAboveRoot : bool) (segs res : list string)
  : list string :=
  match segs with
  | [] => res
  | seg :: segs' =>
      if String.eqb seg "" || String.eqb seg "." then
        normalize_rev allowAboveRoot segs' res
      else if String.eqb seg ".." then
        match res with
        | last :: res' =>
            if String.eqb last ".." then
              normalize_rev allowAboveRoot segs'
                (if allowAboveRoot then ".." :: res else res)
            else normalize_rev allowAboveRoot segs' res'
        | [] =>
            normalize_rev allowAboveRoot segs'
              (if allowAboveRoot then [".."] else [])
        end
      else normalize_rev allowAboveRoot segs' (seg :: res)
  end.

Definition endsWith_slash (p : string) : bool :=
  match JS.rev_string p EmptyString with
  | String a _ => Ascii.eqb a "/"
  | EmptyString => false
  end.

(** [path.posix.normalize] *)
Definition normalize (p : string) : string :=
  match p with
  | EmptyString => "."
  | String a _ =>
      let isAbsolute := Ascii.eqb a "/" in
      let trailing := endsWith_slash p in
      let body :=
        JS.join "/" (rev (normalize_rev (negb isAbsolute) (JS.split "/" p) [])) in
      match body with
      | EmptyString => if isAbsolute then "/" else if trailing then "./" else "."
      | _ =>
          ((if isAbsolute then "/" else "") ++ body ++
           (if trailing then "/" else ""))%string
      end
  end.

(** [path.posix.join] *)
Definition join (args : list string) : string :=
  match filter (fun a => JS.truthy a = true) args with
  | [] => "."
  | parts => normalize (JS.join "/" parts)
  end.

Fixpoint drop_while (f : ascii -> bool) (s : string) : string :=
  match s with
  | String a s' => if f a then drop_while f s' else s
  | EmptyString => EmptyString
  end.

(** [path.posix.dirname] *)
Definition dirname (p : string) : string :=
  match p with
  | EmptyString => "."
  | String a body =>
      let hasRoot := Ascii.eqb a "/" in
      let r := JS.rev_string body EmptyString in
      let r1 := drop_while (Ascii.eqb "/") r in
      let r2 := drop_while (fun c => negb (Ascii.eqb c "/")) r1 in
      match r2 with
      | EmptyString => if hasRoot then "/" else "."
      | String _ r3 =>
          if hasRoot && (String.length r2 =? 1)%nat then "//"
          else String a (JS.rev_string r3 EmptyString)
      end
  end.

Definition delimiter : string := ":".

End PosixPath.


(* ================================================================== *)
(** ** Data model *)
(* ================================================================== *)

Open Scope list_scope.

(** [javaInfo.version] is [parseInt(version) || version]: a number, or
    the version string itself. *)
Inductive Version : Type :=
| VNum (n : Z)
| VStr (s : string).

Record JavaInfo : Type := mkJavaInfo {
  java_path : string;
  java_version : Version;
  java_vendor : string;
  java_bitness : string;
  java_type : string;
  java_isValid : bool
}.

(** The account record of a launch request. *)
Record Account : Type := mkAccount {
  username : string;
  uuid : option string;
  acc_type : string;
  accessToken : option string
}.

(** The version manifest [versions/<id>/<id>.json]. *)
Record Artifact : Type := mkArtifact { art_path : string }.
Record Downloads : Type := mkDownloads { artifact : option Artifact }.
Record Library : Type := mkLibrary { downloads : option Downloads }.

Record Manifest : Type := mkManifest {
  vi_id : string;
  vi_assets : option string;
  vi_libraries : option (list Library)
}.

Record Config : Type := mkConfig {
  gameDirectory : string;
  cfg_javaPath : option string;
  cfg_memory : Z
}.

(** The request of [launchGame]; [account] and [version] are [undefined]
    when the caller left them out, and a version is given by its [id]. *)
Record LaunchConfig : Type := mkLaunchConfig {
  lc_account : option Account;
  lc_version : option string;
  lc_javaPath : option string;
  lc_memory : option Z;
  lc_jvmArgs : list string;
  lc_gameArgs : list string
}.

Inductive Channel : Type := stdout | stderr.

Record OutputRecord : Type := mkOutput {
  out_type : Channel;
  out_data : string;
  out_timestamp : Z
}.

(** The handle [spawn] returns; [pid] is [undefined] when the operating
    system could not start the program. *)
Record ChildProcess : Type := mkProcess { pid : option Z }.

Inductive Exn : Type :=
| Error (message : string)
| TypeError (message : string).

Definition exn_message (e : Exn) : string :=
  match e with Error m => m | TypeError m => m end.

Inductive Event : Type :=
| java_versions_detected (versions : list JavaInfo)
| game_launched (p : option Z) (account version : string) (javaVersion : Version)
| game_launch_failed (error account version : string)
| game_output (channel : Channel) (data : string)
| game_exit (exit_code : option Z) (exit_type : string)
    (output : list OutputRecord)
| game_error (error : string)
| game_error_detected (error message : string)
| game_stopped (p : option Z).

Inductive Effect : Type :=
| Emit (e : Event)
| Spawn (command : string) (args : list string) (cwd : option string)
        (env_added : list (string * string)) (windowsHide : bool)
| Kill (p : ChildProcess) (signal : string)
| Mkdir (dir : string).

(** The fields of [this]. *)
Record Launcher : Type := mkLauncher {
  gameProcess : option ChildProcess;
  isRunning : bool;
  gameOutput : list OutputRecord;
  javaVersions : list JavaInfo;
  javaCache : gmap string JavaInfo;
  currentVersionInfo : option Manifest
}.

Record State : Type := mkState {
  this : Launcher;
  trace : list Effect
}.

(** What the launcher reads from its surroundings. *)
Record Env : Type := mkEnv {
  platform : string;                                (* os.platform() *)
  process_env : string -> option string;            (* process.env[name] *)
  getConfig : Config;                               (* configManager.getConfig() *)
  exec_output : string -> option string;
    (* exec(command), for a command that exits: [stdout || stderr], or
       [None] when it fails *)
  glob_sync : string -> option (list string);
    (* require('glob').sync(pattern), or [None] when it throws *)
  read_manifest : string -> option Manifest;
    (* fs.access, fs.readFile and JSON.parse of a file; [None] when one fails *)
  spawn_process : string -> list string -> option ChildProcess;
    (* spawn(command, args), or [None] when it throws *)
  path_join : list string -> string;                (* path.join *)
  path_dirname : string -> string;                  (* path.dirname *)
  path_delimiter : string                           (* path.delimiter *)
}.

(** The constructor's assignments. *)
Definition new_launcher : Launcher :=
  mkLauncher None false [] [] ∅ None.

Definition set_gameProcess (p : option ChildProcess) (l : Launcher) : Launcher :=
  mkLauncher p (isRunning l) (gameOutput l) (javaVersions l) (javaCache l)
    (currentVersionInfo l).

Definition set_isRunning (b : bool) (l : Launcher) : Launcher :=
  mkLauncher (gameProcess l) b (gameOutput l) (javaVersions l) (javaCache l)
    (currentVersionInfo l).

Definition set_gameOutput (o : list OutputRecord) (l : Launcher) : Launcher :=
  mkLauncher (gameProcess l) (isRunning l) o (javaVersions l) (javaCache l)
    (currentVersionInfo l).

Definition set_javaVersions (v : list JavaInfo) (l : Launcher) : Launcher :=
  mkLauncher (gameProcess l) (isRunning l) (gameOutput l) v (javaCache l)
    (currentVersionInfo l).

Definition set_javaCache (c : gmap string JavaInfo) (l : Launcher) : Launcher :=
  mkLauncher (gameProcess l) (isRunning l) (gameOutput l) (javaVersions l) c
    (currentVersionInfo l).

(* ================================================================== *)
(** ** Methods that may throw: state and exceptions *)
(* ================================================================== *)

Inductive result (A : Type) : Type :=
| Return (a : A)
| Throw (e : Exn).

Arguments Return {A} a.
Arguments Throw {A} e.

Definition M (A : Type) : Type := State -> result A * State.

Definition ret {A} (a : A) : M A := fun st => (Return a, st).

Definition throw {A} (e : Exn) : M A := fun st => (Throw e, st).

Definition bind {A B} (m : M A) (f : A -> M B) : M B :=
  fun st =>
    match m st with
    | (Return a, st') => f a st'
    | (Throw e, st') => (Throw e, st')
    end.

(** [try { m } catch (error) { h error }] *)
Definition try_catch {A} (m : M A) (h : Exn -> M A) : M A :=
  fun st =>
    match m st with
    | (Throw e, st') => h e st'
    | r => r
    end.

Definition get_this : M Launcher := fun st => (Return (this st), st).

Definition modify (f : Launcher -> Launcher) : M unit :=
  fun st => (Return tt, mkState (f (this st)) (trace st)).

Definition effect (e : Effect) : M unit :=
  fun st => (Return tt, mkState (this st) (trace st ++ [e])).

(** [this.emit(name, payload)]: the listeners are observers. *)
Definition emit (e : Event) : M unit := effect (Emit e).

#[global] Instance M_ret : MRet M := @ret.
#[global] Instance M_bind : MBind M := fun A B f m => bind m f.

(** [o.property] for a value [o] that may be [undefined]. *)
Definition read_property {A} (o : option A) (property : string) : M A :=
  match o with
  | Some a => ret a
  | None =>
      throw (TypeError ("Cannot read properties of undefined (reading '" +:+
                        property +:+ "')"))
  end.

Fixpoint mapM {A B} (f : A -> M B) (l : list A) : M (list B) :=
  match l with
  | [] => ret []
  | a :: l' => b ← f a; bs ← mapM f l'; ret (b :: bs)
  end.


(* ================================================================== *)
(** ** [class HCLJavaLauncher] *)
(* ================================================================== *)

Module JavaLauncher.

Definition quoted (s : string) : string :=
  String JS.dquote (s +:+ String JS.dquote EmptyString).

(** [String(v)] and [Number(v)] of a [javaInfo.version]. *)
Definition version_to_string (v : Version) : string :=
  match v with
  | VNum n => JS.number_to_string n
  | VStr s => s
  end.

Definition version_to_number (v : Version) : JS.number :=
  match v with
  | VNum n => JS.Finite (inject_Z n)
  | VStr s => JS.ToNumber s
  end.

(** [parseInt(v) || 0] *)
Definition parseInt_or_0 (v : Version) : Z :=
  match JS.parseInt (version_to_string v) with
  | Some n => n
  | None => 0
  end.

(** The first pattern of [parseJavaVersion]: the word version, [\s+], a
    double quote, the captured run of characters other than a double
    quote, and a double quote. *)
Definition re_version : Regex.regex :=
  Regex.lit "version" ++
  [Regex.Item JS.is_space Regex.Plus 0;
   Regex.Item (Ascii.eqb JS.dquote) Regex.One 0;
   Regex.Item (fun c => negb (Ascii.eqb c JS.dquote)) Regex.Plus 1;
   Regex.Item (Ascii.eqb JS.dquote) Regex.One 0].

(** The second pattern: [/\(build\s+([^)]+)\)/]. *)
Definition re_build : Regex.regex :=
  Regex.lit "(build" ++
  [Regex.Item JS.is_space Regex.Plus 0;
   Regex.Item (fun c => negb (Ascii.eqb c ")")) Regex.Plus 1;
   Regex.Item (Ascii.eqb ")") Regex.One 0].

(** [line.match(re)[1]] *)
Definition match1 (re : Regex.regex) (line : string) : option string :=
  match Regex.exec re line with
  | Some (_, m, _) => Some (Regex.group 1 m)
  | None => None
  end.

(** The variables of the loop of [parseJavaVersion]. *)
Record Banner : Type := mkBanner {
  b_version : string;
  b_vendor : string;
  b_bitness : string;
  b_type : string
}.

(** The normalisation of a matched version: [1.8.x -> 8], [11.x.x -> 11]. *)
Definition normalize_version (version : string) : string :=
  if JS.includes version "." then
    let parts := JS.split "." version in
    if String.eqb (nth 0 parts "") "1" then nth 1 parts "" else nth 0 parts ""
  else version.

(** One iteration of [for (const line of lines)]. *)
Definition scan_line (b : Banner) (line : string) : Banner :=
  let lowerLine := JS.toLowerCase line in
  let versionMatch :=
    match match1 re_version line with
    | Some v => Some v
    | None => match1 re_build line
    end in
  let version :=
    match versionMatch with
    | Some v => normalize_version v
    | None => b_version b
    end in
  let '(vendor, type0) :=
    if JS.includes lowerLine "openjdk" then ("OpenJDK", "JDK")
    else if JS.includes lowerLine "java(tm)" || JS.includes lowerLine "oracle"
    then ("Oracle", b_type b)
    else if JS.includes lowerLine "adoptopenjdk" || JS.includes lowerLine "adoptium"
    then ("Adoptium", b_type b)
    else if JS.includes lowerLine "microsoft" then ("Microsoft", b_type b)
    else if JS.includes lowerLine "zulu" then ("Zulu", b_type b)
    else if JS.includes lowerLine "amazon" then ("Amazon Corretto", b_type b)
    else (b_vendor b, b_type b) in
  let bitness :=
    if JS.includes lowerLine "64-bit" then "64-bit"
    else if JS.includes lowerLine "32-bit" then "32-bit"
    else b_bitness b in
  let type :=
    if JS.includes lowerLine "jdk" then "JDK"
    else if JS.includes lowerLine "jre" then "JRE"
    else type0 in
  mkBanner version vendor bitness type.

(** [parseInt(version) || version] *)
Definition version_field (version : string) : Version :=
  match JS.parseInt version with
  | Some n => if n =? 0 then VStr version else VNum n
  | None => VStr version
  end.

Definition parseJavaVersion (output javaPath : string) : option JavaInfo :=
  let lines := JS.split JS.LF output in
  let b := fold_left scan_line lines (mkBanner "" "" "64-bit" "JRE") in
  if negb (JS.truthy (b_version b)) then None
  else Some (mkJavaInfo javaPath (version_field (b_version b))
               (b_vendor b) (b_bitness b) (b_type b) true).

(** [(a, b) => b - a] on the parsed versions: descending order. *)
Definition compareJavaVersions (versionA versionB : Version) : Z :=
  parseInt_or_0 versionB - parseInt_or_0 versionA.

(** [array.sort(cmp)] for a consistent comparison: the stable sort. *)
Fixpoint sort_insert {A} (cmp : A -> A -> Z) (x : A) (l : list A) : list A :=
  match l with
  | [] => [x]
  | y :: l' => if cmp x y <=? 0 then x :: l else y :: sort_insert cmp x l'
  end.

Fixpoint sort {A} (cmp : A -> A -> Z) (l : list A) : list A :=
  match l with
  | [] => []
  | x :: l' => sort_insert cmp x (sort cmp l')
  end.

(** [uniqueVersions]: a [Map] read back in insertion order. *)
Fixpoint map_has {V} (m : list (string * V)) (key : string) : bool :=
  match m with
  | [] => false
  | (k, _) :: m' => String.eqb k key || map_has m' key
  end.

Definition add_unique (uniqueVersions : list (string * JavaInfo))
    (result : option JavaInfo) : list (string * JavaInfo) :=
  match result with
  | Some javaInfo =>
      let key := version_to_string (java_version javaInfo) +:+ "-" +:+
                 java_path javaInfo in
      if map_has uniqueVersions key then uniqueVersions
      else uniqueVersions ++ [(key, javaInfo)]
  | None => uniqueVersions
  end.

(** [javaVersions.find(j => j.version === n)] *)
Definition has_version (n : Z) (j : JavaInfo) : bool :=
  match java_version j with
  | VNum m => m =? n
  | VStr _ => false
  end.

Definition getRecommendedJavaVersion (l : Launcher) : option JavaInfo :=
  match find (has_version 8) (javaVersions l) with
  | Some java8 => Some java8
  | None =>
      match find (has_version 11) (javaVersions l) with
      | Some java11 => Some java11
      | None => head (javaVersions l)
      end
  end.

(** [Math.floor(memory / d)] *)
Definition floor_div (memory d : Z) : Z := memory / d.

(** [generateOfflineUUID(username)]; the pattern is
    [/(.{8})(.{4})(.{4})(.{4})(.{12})/]. *)
Definition re_uuid : Regex.regex :=
  Regex.dots 8 1 ++ Regex.dots 4 2 ++ Regex.dots 4 3 ++ Regex.dots 4 4 ++
  Regex.dots 12 5.

Definition generateOfflineUUID (username : string) : string :=
  let hash := MD5.md5_hex ("OfflinePlayer:" +:+ username) in
  Regex.replace re_uuid 5 "$1-$2-$3-$4-$5" hash.

(** [checkJavaCompatibility(version)] *)
Record Compatibility : Type := mkCompat {
  compatible : bool;
  compat_message : option string;
  compat_warning : option string
}.

Definition checkJavaCompatibility (version : Version) : Compatibility :=
  let javaVersion := parseInt_or_0 version in
  if javaVersion <? 8 then
    mkCompat false (Some "需要 Java 8 或更高版本") None
  else if javaVersion >? 21 then
    mkCompat true (Some "新版 Java 可能需要额外参数")
      (Some "某些模组可能不兼容新版 Java")
  else mkCompat true None None.

(** [optimizeJVMArgs(javaVersion, memory, osType)] *)
Definition optimizeJVMArgs (javaVersion memory : Z) (osType : string)
  : list string :=
  ["-Xmx" +:+ JS.number_to_string memory +:+ "M";
   "-Xms" +:+ JS.number_to_string (floor_div memory 4) +:+ "M"] ++
  (if javaVersion >=? 9 then
     ["-XX:+UseG1GC"; "-XX:G1NewSizePercent=20"; "-XX:G1ReservePercent=20";
      "-XX:MaxGCPauseMillis=50"; "-XX:G1HeapRegionSize=32M"]
   else
     ["-XX:+UseConcMarkSweepGC"; "-XX:+CMSIncrementalMode";
      "-XX:-UseAdaptiveSizePolicy"]) ++
  ["-XX:+UnlockExperimentalVMOptions"; "-XX:+DisableExplicitGC"] ++
  (if String.eqb osType "darwin" then ["-XstartOnFirstThread"] else []).

(** [this.gameOutput.slice(start)] *)
Definition slice_from {A} (start : Z) (l : list A) : list A :=
  let len := Z.of_nat (length l) in
  let k := if start <? 0 then Z.max (len + start) 0 else Z.min start len in
  drop (Z.to_nat k) l.

(** [getGameOutput(limit = 100)]; [None] is an omitted argument. *)
Definition getGameOutput (limit : option Z) (l : Launcher) : list OutputRecord :=
  slice_from (- default 100 limit) (gameOutput l).

(** The signature rules of [checkForErrors], in the order of the source. *)
Definition errorPatterns : list (Regex.regex * string) :=
  [(Regex.of_pattern "java.lang.OutOfMemoryError", "内存不足，请增加分配的内存");
   (Regex.of_pattern "Could not find or load main class", "游戏文件损坏，请重新安装");
   (Regex.of_pattern "Authentication failed", "账户认证失败，请重新登录");
   (Regex.of_pattern "Failed to download", "文件下载失败，请检查网络连接");
   (Regex.of_pattern "Invalid access token", "访问令牌无效，请重新登录")].

(** [for (const { pattern, message } of rules) if (pattern.test(output))
    { emit; break; }] *)
Fixpoint scan_rules (rules : list (Regex.regex * string)) (output : string)
  : M unit :=
  match rules with
  | [] => ret tt
  | (pattern, message) :: rest =>
      if Regex.test pattern output
      then emit (game_error_detected output message)
      else scan_rules rest output
  end.

Definition checkForErrors (output : string) : M unit :=
  scan_rules errorPatterns output.

Definition push_output (r : OutputRecord) : M unit :=
  modify (fun l => set_gameOutput (gameOutput l ++ [r]) l).

(** The listeners that [setupProcessListeners] installs; [now] is
    [Date.now()] at the time of the event. *)
Definition on_stdout_data (output : string) (now : Z) : M unit :=
  push_output (mkOutput stdout output now);;
  emit (game_output stdout output).

Definition on_stderr_data (output : string) (now : Z) : M unit :=
  push_output (mkOutput stderr output now);;
  emit (game_output stderr output);;
  checkForErrors output.

Definition on_close (exit_code : option Z) : M unit :=
  modify (set_isRunning false);;
  l ← get_this;
  emit (game_exit exit_code
          (match exit_code with
           | Some 0 => "normal"
           | _ => "error"
           end)
          (gameOutput l));;
  modify (set_gameProcess None).

Definition on_error (message : string) : M unit :=
  modify (set_isRunning false);;
  emit (game_error message);;
  modify (set_gameProcess None).

Section WithEnv.

Context (env : Env).

Definition gameDir : string := gameDirectory (getConfig env).

(** [execCommand(command)] *)
Definition execCommand (command : string) : M string :=
  match exec_output env command with
  | Some out => ret out
  | None => throw (Error "Command failed")
  end.

Definition getCommonJavaPaths : list string :=
  let paths :=
    if String.eqb (platform env) "win32" then
      let programFiles :=
        JS.or_else (process_env env "ProgramFiles") "C:\Program Files" in
      let programFilesX86 :=
        JS.or_else (process_env env "ProgramFiles(x86)")
          "C:\Program Files (x86)" in
      [path_join env [programFiles; "Java"; "jdk-*"; "bin"; "java.exe"];
       path_join env [programFiles; "Java"; "jre-*"; "bin"; "java.exe"];
       path_join env [programFilesX86; "Java"; "jdk-*"; "bin"; "java.exe"];
       path_join env [programFilesX86; "Java"; "jre-*"; "bin"; "java.exe"];
       "C:\Program Files\AdoptOpenJDK\*\bin\java.exe";
       "C:\Program Files\Eclipse Adoptium\*\bin\java.exe";
       "C:\Program Files\Microsoft\jdk-*\bin\java.exe"]
    else if String.eqb (platform env) "darwin" then
      ["/Library/Java/JavaVirtualMachines/*/Contents/Home/bin/java";
       "/usr/local/opt/openjdk*/bin/java";
       "/opt/homebrew/opt/openjdk*/bin/java";
       "/System/Library/Frameworks/JavaVM.framework/Versions/Current/Commands/java"]
    else
      ["/usr/lib/jvm/*/bin/java";
       "/usr/lib/jvm/*/jre/bin/java";
       "/usr/bin/java";
       "/usr/local/bin/java";
       "/opt/jdk*/bin/java";
       "/opt/jre*/bin/java"] in
  flat_map (fun pattern =>
              match glob_sync env pattern with
              | Some matches => matches
              | None => []
              end) paths.

Definition checkJavaVersion (javaPath : string) : M (option JavaInfo) :=
  l ← get_this;
  match javaCache l !! javaPath with
  | Some cached => ret (Some cached)
  | None =>
      try_catch
        (versionOutput ← execCommand (quoted javaPath +:+ " -version");
         match parseJavaVersion versionOutput javaPath with
         | Some versionInfo =>
             modify (fun l => set_javaCache (<[javaPath := versionInfo]> (javaCache l)) l);;
             ret (Some versionInfo)
         | None => ret None
         end)
        (fun _ => ret None)
  end.

Fixpoint findJavaInPath_loop (commands : list string) : M (option JavaInfo) :=
  match commands with
  | [] => ret None
  | cmd :: rest =>
      match exec_output env cmd with
      | Some javaPath =>
          if JS.truthy javaPath && JS.truthy (JS.trim javaPath) then
            checkJavaVersion (nth 0 (JS.split JS.LF (JS.trim javaPath)) "")
          else findJavaInPath_loop rest
      | None => findJavaInPath_loop rest
      end
  end.

Definition findJavaInPath : M (option JavaInfo) :=
  findJavaInPath_loop
    (if String.eqb (platform env) "win32" then ["java.exe"; "where java"]
     else ["which java"; "command -v java"]).

(** The probes are started together and awaited with
    [Promise.allSettled]; with a command runner that answers a command the
    same way each time, their results are those of the probes run one
    after the other, in the order of the promises. *)
Definition detectJavaVersions : M (list JavaInfo) :=
  modify (set_javaVersions []);;
  probes ← mapM checkJavaVersion getCommonJavaPaths;
  inPath ← findJavaInPath;
  let results := probes ++ [inPath] in
  let uniqueVersions := fold_left add_unique results [] in
  let sorted :=
    sort (fun a b => compareJavaVersions (java_version a) (java_version b))
      (map snd uniqueVersions) in
  modify (set_javaVersions sorted);;
  emit (java_versions_detected sorted);;
  ret sorted.

Definition validateJava (javaPath : option string) : M JavaInfo :=
  if negb (JS.truthy_opt javaPath) then
    l ← get_this;
    match getRecommendedJavaVersion l with
    | Some recommended => ret recommended
    | None => throw (Error "未找到 Java 运行时环境")
    end
  else
    let javaPath := default "" javaPath in
    r ← checkJavaVersion javaPath;
    match r with
    | None => throw (Error ("Java 路径无效: " +:+ javaPath))
    | Some javaInfo =>
        if JS.number_lt (version_to_number (java_version javaInfo)) 8 then
          throw (Error ("Java 版本过低 (" +:+
                        version_to_string (java_version javaInfo) +:+
                        ")，需要 Java 8 或更高版本"))
        else ret javaInfo
    end.

(** [validateVersion(version)], from [version.id] on; the [try] block of
    [launchGame] has the read of [id]. *)
Definition validateVersion (version_id : string) : M Manifest :=
  let versionDir := path_join env [gameDir; "versions"; version_id] in
  let versionJson := path_join env [versionDir; version_id +:+ ".json"] in
  match read_manifest env versionJson with
  | Some manifest => ret manifest
  | None => throw (Error ("游戏版本未安装: " +:+ version_id))
  end.

Definition validateAccount (account : option Account) : M unit :=
  match account with
  | None => throw (Error "账户信息不完整")
  | Some account =>
      if negb (JS.truthy (username account)) then
        throw (Error "账户信息不完整")
      else if String.eqb (acc_type account) "microsoft" &&
              negb (JS.truthy_opt (accessToken account)) then
        throw (Error "Microsoft 账户需要访问令牌")
      else ret tt
  end.

Definition prepareLaunchArguments (account : Account) (versionInfo : Manifest)
    (memory : Z) (javaInfo : JavaInfo) : list string * list string :=
  let assetsDir := path_join env [gameDir; "assets"] in
  let jvmArguments :=
    ["-Xmx" +:+ JS.number_to_string memory +:+ "M";
     "-Xms" +:+ JS.number_to_string (floor_div memory 2) +:+ "M";
     "-XX:+UnlockExperimentalVMOptions";
     "-XX:+UseG1GC";
     "-XX:G1NewSizePercent=20";
     "-XX:G1ReservePercent=20";
     "-XX:MaxGCPauseMillis=50";
     "-XX:G1HeapRegionSize=32M";
     "-Djava.library.path=${natives_directory}";
     "-Dminecraft.launcher.brand=hcl";
     "-Dminecraft.launcher.version=1.0.0";
     "-cp"; "${classpath}"] ++
    (if JS.number_ge (version_to_number (java_version javaInfo)) 9 then
       ["--add-opens=java.base/java.util.jar=ALL-UNNAMED";
        "--add-opens=java.base/java.lang=ALL-UNNAMED";
        "--add-opens=java.base/java.io=ALL-UNNAMED"]
     else []) in
  let gameArguments :=
    ["net.minecraft.client.main.Main";
     "--username"; username account;
     "--version"; vi_id versionInfo;
     "--gameDir"; gameDir;
     "--assetsDir"; assetsDir;
     "--assetIndex"; JS.or_else (vi_assets versionInfo) "legacy";
     "--uuid"; JS.or_else (uuid account) (generateOfflineUUID (username account));
     "--accessToken"; JS.or_else (accessToken account) "0";
     "--userType";
       (if String.eqb (acc_type account) "microsoft" then "mojang" else "legacy");
     "--versionType"; "release"] ++
    (if String.eqb (acc_type account) "offline" then ["--demo"] else []) in
  (jvmArguments, gameArguments).

(** The library paths of [generateClasspath]: one for each library that
    has [downloads.artifact]. *)
Fixpoint library_paths (libs : list Library) : list string :=
  match libs with
  | [] => []
  | lib :: libs' =>
      match downloads lib with
      | Some d =>
          match artifact d with
          | Some a =>
              path_join env [gameDir; "libraries"; art_path a] ::
              library_paths libs'
          | None => library_paths libs'
          end
      | None => library_paths libs'
      end
  end.

Definition clientJar (versionInfo : Manifest) : string :=
  path_join env [gameDir; "versions"; vi_id versionInfo;
                 vi_id versionInfo +:+ ".jar"].

Definition generateClasspath (versionInfo : Manifest) : string :=
  let libraries :=
    match vi_libraries versionInfo with
    | Some libs => library_paths libs
    | None => []
    end in
  JS.join (path_delimiter env) (libraries ++ [clientJar versionInfo]).

(** Reading a property of [this.currentVersionInfo]. *)
Definition deref (o : option Manifest) (property : string) : M Manifest :=
  match o with
  | Some versionInfo => ret versionInfo
  | None =>
      throw (TypeError ("Cannot read properties of undefined (reading '" +:+
                        property +:+ "')"))
  end.

Definition generateNativesPath (o : option Manifest) : M string :=
  versionInfo ← deref o "id";
  let nativesDir :=
    path_join env [gameDir; "versions"; vi_id versionInfo; "natives"] in
  effect (Mkdir nativesDir);;
  ret nativesDir.

Definition generateClasspath_of (o : option Manifest) : M string :=
  versionInfo ← deref o "libraries";
  ret (generateClasspath versionInfo).

(** [spawn(command, args, options)] *)
Definition spawn (command : string) (args : list string) (cwd : option string)
    (env_added : list (string * string)) (windowsHide : bool) : M ChildProcess :=
  match spawn_process env command args with
  | Some p => effect (Spawn command args cwd env_added windowsHide);; ret p
  | None => throw (Error "spawn failed")
  end.

Definition spawnGameProcess (javaPath : string) (jvmArgs gameArgs : list string)
  : M ChildProcess :=
  let isWindows := String.eqb (platform env) "win32" in
  processedJvmArgs ←
    mapM (fun arg =>
            l ← get_this;
            natives ← generateNativesPath (currentVersionInfo l);
            let arg1 :=
              Regex.replace_all (Regex.lit "${natives_directory}") natives arg in
            classpath ← generateClasspath_of (currentVersionInfo l);
            ret (Regex.replace_all (Regex.lit "${classpath}") classpath arg1))
         jvmArgs;
  let allArgs := processedJvmArgs ++ gameArgs in
  spawn javaPath allArgs (Some gameDir)
    [("JAVA_HOME", path_dirname env (path_dirname env javaPath));
     ("GAME_DIR", gameDir)]
    isWindows.

(** The listeners are [on_stdout_data], [on_stderr_data], [on_close] and
    [on_error]; installing them changes no field. *)
Definition setupProcessListeners : M unit := ret tt.

Record LaunchResult : Type := mkLaunchResult {
  success : bool;
  res_pid : option Z;
  res_javaVersion : Version
}.

(** The [try] block of [launchGame].  [validateVersion] reads [version.id]
    first, and [prepareLaunchArguments] reads [account.username]. *)
Definition launchGame_try (launchConfig : LaunchConfig) : M LaunchResult :=
  let config := getConfig env in
  javaInfo ←
    validateJava (if JS.truthy_opt (lc_javaPath launchConfig)
                  then lc_javaPath launchConfig else cfg_javaPath config);
  version_id ← read_property (lc_version launchConfig) "id";
  versionInfo ← validateVersion version_id;
  validateAccount (lc_account launchConfig);;
  account ← read_property (lc_account launchConfig) "username";
  let memory :=
    match lc_memory launchConfig with
    | Some m => if m =? 0 then cfg_memory config else m
    | None => cfg_memory config
    end in
  let '(jvmArguments, gameArguments) :=
    prepareLaunchArguments account versionInfo memory javaInfo in
  let finalJvmArgs := jvmArguments ++ lc_jvmArgs launchConfig in
  let finalGameArgs := gameArguments ++ lc_gameArgs launchConfig in
  p ← spawnGameProcess (java_path javaInfo) finalJvmArgs finalGameArgs;
  modify (set_gameProcess (Some p));;
  modify (set_isRunning true);;
  modify (set_gameOutput []);;
  setupProcessListeners;;
  emit (game_launched (pid p) (username account) (vi_id versionInfo)
          (java_version javaInfo));;
  ret (mkLaunchResult true (pid p) (java_version javaInfo)).

(** Its [catch] block: the payload of the event is built from
    [account.username] and [version.id] before [emit] is called. *)
Definition launchGame_catch (launchConfig : LaunchConfig) (error : Exn)
  : M LaunchResult :=
  account ← read_property (lc_account launchConfig) "username";
  version_id ← read_property (lc_version launchConfig) "id";
  emit (game_launch_failed (exn_message error) (username account) version_id);;
  throw error.

Definition launchGame (launchConfig : LaunchConfig) : M LaunchResult :=
  l ← get_this;
  if isRunning l then throw (Error "游戏正在运行中")
  else try_catch (launchGame_try launchConfig) (launchGame_catch launchConfig).

(** [stopGame()] *)
Definition stopGame : M bool :=
  l ← get_this;
  match gameProcess l with
  | Some p =>
      if negb (isRunning l) then ret false
      else
        try_catch
          ((if String.eqb (platform env) "win32" then
              match pid p with
              | Some n =>
                  spawn "taskkill" ["/pid"; JS.number_to_string n; "/f"; "/t"]
                    None [] false;;
                  ret tt
              | None =>
                  throw (TypeError
                    "Cannot read properties of undefined (reading 'toString')")
              end
            else effect (Kill p "SIGTERM"));;
           modify (set_isRunning false);;
           emit (game_stopped (pid p));;
           ret true)
          (fun _ => ret false)
  | None => ret false
  end.

End WithEnv.

End JavaLauncher.

(* ================================================================== *)
(** ** [class HCLGameManager]: the argument builder *)
(* ================================================================== *)

Module GameManager.

Definition generateJVMArgs (memory : Z) (gameDir : string) (account : Account)
  : list string :=
  ["-Xmx" +:+ JS.number_to_string memory +:+ "M";
   "-Xms" +:+ JS.number_to_string (JavaLauncher.floor_div memory 4) +:+ "M";
   "-Djava.library.path=${natives_directory}";
   "-Dminecraft.launcher.brand=hcl";
   "-Dminecraft.launcher.version=1.0.0";
   "-cp"; "${classpath}"] ++
  (if negb (String.eqb (acc_type account) "offline") then
     ["-Dminecraft.api.auth.host=https://authserver.mojang.com";
      "-Dminecraft.api.account.host=https://api.mojang.com";
      "-Dminecraft.api.session.host=https://sessionserver.mojang.com"]
   else []).

End GameManager.


(* ================================================================== *)
(** ** A Linux installation, for the worked examples *)
(* ================================================================== *)

Module Sample.

(** The banner that [java -version] of an OpenJDK 8 prints. *)
Definition openjdk8_banner : string :=
  "openjdk version " +:+ JavaLauncher.quoted "1.8.0_301" +:+ String JS.LF
  ("OpenJDK Runtime Environment (build 1.8.0_301-b09)" +:+ String JS.LF
   "OpenJDK 64-Bit Server VM (build 25.301-b09, mixed mode)").

(** A one-line banner of a Java 7, and one without a number. *)
Definition java7_banner : string :=
  "java version " +:+ JavaLauncher.quoted "1.7.0_80".

Definition unnumbered_banner : string :=
  "java version " +:+ JavaLauncher.quoted "abc".

Definition java8 : JavaInfo :=
  mkJavaInfo "/usr/bin/java" (VNum 8) "OpenJDK" "64-bit" "JDK" true.

Definition config : Config := mkConfig "/home/u/.minecraft" None 2048.

Definition manifest : Manifest :=
  mkManifest "1.20.1" (Some "5")
    (Some [mkLibrary (Some (mkDownloads (Some (mkArtifact "com/a/a-1.0.jar"))));
           mkLibrary None;
           mkLibrary (Some (mkDownloads None));
           mkLibrary (Some (mkDownloads (Some (mkArtifact "org/b/b-2.0.jar"))))]).

Definition steve : Account := mkAccount "Steve" None "offline" None.

(** One Java at [/usr/bin/java] whose banner is [banner]; the version
    [1.20.1] is installed. *)
Definition linux (banner : string) : Env :=
  mkEnv "linux" (fun _ => None) config
    (fun command =>
       if String.eqb command (JavaLauncher.quoted "/usr/bin/java" +:+ " -version")
       then Some banner else None)
    (fun pattern =>
       if String.eqb pattern "/usr/bin/java" then Some ["/usr/bin/java"]
       else Some [])
    (fun file =>
       if String.eqb file "/home/u/.minecraft/versions/1.20.1/1.20.1.json"
       then Some manifest else None)
    (fun _ _ => Some (mkProcess (Some 4242)))
    PosixPath.join PosixPath.dirname PosixPath.delimiter.

Definition request : LaunchConfig :=
  mkLaunchConfig (Some steve) (Some "1.20.1") (Some "/usr/bin/java")
    (Some 2048) [] [].

Definition fresh : State := mkState new_launcher [].

(** A launcher with a session running. *)
Definition running : State :=
  mkState (mkLauncher (Some (mkProcess (Some 4242))) true
             [mkOutput stdout "Loading" 1; mkOutput stderr "warn" 2] [] ∅ None)
          [].

End Sample.

(* ================================================================== *)
(** ** Predicates of the statements *)
(* ================================================================== *)

(** What [JavaLauncher.scan_rules] emits: nothing when no rule matches,
    and otherwise the one diagnostic of the first rule that matches. *)
Definition first_match_only (rules : list (Regex.regex * string))
    (output : string) (diagnostics : list Effect) : Prop :=
  (diagnostics = [] /\
   forall i pattern message,
     rules !! i = Some (pattern, message) -> Regex.test pattern output = false)
  \/
  (exists (i : nat) pattern message,
      rules !! i = Some (pattern, message) /\
      Regex.test pattern output = true /\
      (forall j p m, (j < i)%nat -> rules !! j = Some (p, m) ->
                     Regex.test p output = false) /\
      diagnostics = [Emit (game_error_detected output message)]).

(** What a match consumed is what the subject lost. *)
Definition consumes (acc : Regex.tagged) (s : string)
    (res : option (Regex.tagged * string)) : Prop :=
  forall m post, res = Some (m, post) ->
    (length m + String.length post = length acc + String.length s)%nat.

(** The heap flag of an argument list: its first argument that starts
    with [-Xmx], or with [-Xms]. *)
Definition heap_flag (prefix : string) (args : list string) : option string :=
  find (fun arg => JS.startsWith arg prefix) args.

(** The value of a decimal numeral, most significant digit first. *)
Fixpoint uint_value (d : Decimal.uint) (acc : Z) : Z :=
  match d with
  | Decimal.Nil => acc
  | Decimal.D0 d' => uint_value d' (10 * acc)
  | Decimal.D1 d' => uint_value d' (10 * acc + 1)
  | Decimal.D2 d' => uint_value d' (10 * acc + 2)
  | Decimal.D3 d' => uint_value d' (10 * acc + 3)
  | Decimal.D4 d' => uint_value d' (10 * acc + 4)
  | Decimal.D5 d' => uint_value d' (10 * acc + 5)
  | Decimal.D6 d' => uint_value d' (10 * acc + 6)
  | Decimal.D7 d' => uint_value d' (10 * acc + 7)
  | Decimal.D8 d' => uint_value d' (10 * acc + 8)
  | Decimal.D9 d' => uint_value d' (10 * acc + 9)
  end.

(** What [parseInt(version) || version] can be for a matched version
    string: a number other than zero, or a non-empty string that
    [parseInt] reads as [NaN] or as zero. *)
Definition version_well_formed (v : Version) : bool :=
  match v with
  | VNum n => negb (n =? 0)
  | VStr s =>
      JS.truthy s &&
      match JS.parseInt s with
      | Some n => n =? 0
      | None => true
      end
  end.

(** The session fields and the trace, when a step leaves them alone. *)
Definition same_session (st st' : State) : Prop :=
  gameProcess (this st') = gameProcess (this st) /\
  isRunning (this st') = isRunning (this st) /\
  gameOutput (this st') = gameOutput (this st) /\
  currentVersionInfo (this st') = currentVersionInfo (this st) /\
  trace st' = trace st.

Definition candidate_ok (j : JavaInfo) : Prop :=
  version_well_formed (java_version j) = true.

(** The entries of [javaCache] are results of earlier probes. *)
Definition cache_ok (l : Launcher) : Prop :=
  forall (javaPath : string) (j : JavaInfo),
    javaCache l !! javaPath = Some j -> candidate_ok j.

(** Strings of lower-case hexadecimal digits. *)
Definition is_hex_digit (c : ascii) : bool :=
  let n := JS.code c in
  (48 <=? n) && (n <=? 57) || (97 <=? n) && (n <=? 102).

Fixpoint string_forall (f : ascii -> bool) (s : string) : bool :=
  match s with
  | EmptyString => true
  | String a s' => f a && string_forall f s'
  end.

Definition hex_string (n : nat) (s : string) : Prop :=
  String.length s = n /\ string_forall is_hex_digit s = true.

(** The characters of [s], all consumed inside group [g]. *)
Fixpoint tag (g : nat) (s : string) : Regex.tagged :=
  match s with
  | EmptyString => []
  | String a s' => (g, a) :: tag g s'
  end.

(* ================================================================== *)
(** ** [class HCLJavaLauncher]: status, buffer, memory advice *)
(* ================================================================== *)

Module HCLJavaLauncher.

(** [getGameStatus()]: the object [{isRunning: false}] without a process
    handle; a child process has no property [spawnTime], so [startTime] is
    [undefined]. *)
Inductive GameStatus : Type :=
| no_process
| process_status (running : bool) (p : option Z) (startTime : option Z)
    (outputLength : nat).

Definition getGameStatus (l : Launcher) : GameStatus :=
  match gameProcess l with
  | None => no_process
  | Some proc =>
      process_status (isRunning l) (pid proc) None (length (gameOutput l))
  end.

(** [clearGameOutput()] *)
Definition clearGameOutput : M unit := modify (set_gameOutput []).

(** [getSystemInfo().totalMemory]: [Math.floor(os.totalmem() / 1024 / 1024)]
    for the byte count [totalmem]. *)
Definition totalMemory (totalmem : Z) : Z := totalmem / (1024 * 1024).

(** [calculateRecommendedMemory()] *)
Definition calculateRecommendedMemory (totalmem : Z) : Z :=
  let totalMemoryMB := totalMemory totalmem in
  if totalMemoryMB <=? 2048 then 1024
  else if totalMemoryMB <=? 4096 then 2048
  else if totalMemoryMB <=? 8192 then 4096
  else if totalMemoryMB <=? 16384 then 6144
  else 8192.

(** The chunks that the process writes, handed to the listener of their
    channel. *)
Definition deliver (r : OutputRecord) : M unit :=
  match out_type r with
  | stdout => JavaLauncher.on_stdout_data (out_data r) (out_timestamp r)
  | stderr => JavaLauncher.on_stderr_data (out_data r) (out_timestamp r)
  end.

Definition deliver_all (rs : list OutputRecord) (st : State) : State :=
  fold_left (fun st r => snd (deliver r st)) rs st.

(** The operations a caller drives the launcher with, and the state after
    one of them, and after a sequence of them. *)
Inductive Operation : Type :=
| op_detect
| op_launch (launchConfig : LaunchConfig)
| op_stop
| op_clear.

Definition perform (env : Env) (st : State) (op : Operation) : State :=
  match op with
  | op_detect => snd (JavaLauncher.detectJavaVersions env st)
  | op_launch launchConfig => snd (JavaLauncher.launchGame env launchConfig st)
  | op_stop => snd (JavaLauncher.stopGame env st)
  | op_clear => snd (clearGameOutput st)
  end.

Definition perform_all (env : Env) (ops : list Operation) (st : State) : State :=
  fold_left (perform env) ops st.

End HCLJavaLauncher.

(* ================================================================== *)
(** ** [class HCLGameManager]: the session *)
(* ================================================================== *)

Module HCLGameManager.

(** [launchConfig.version] *)
Record VersionRef : Type := mkVersion {
  version_id : string;
  version_assets : string
}.

Record GameLaunch : Type := mkGameLaunch {
  gl_account : Account;
  gl_version : VersionRef;
  gl_javaPath : string;
  gl_memory : Z
}.

(** The payloads of [game-output] and of the two forms of [game-exit]. *)
Inductive GEvent : Type :=
| gm_output (channel : Channel) (data : string)
| gm_exit_normal (exit_code : option Z)
| gm_exit_error (error : string).

Inductive GEffect : Type :=
| GEmit (e : GEvent)
| GSpawn (command : string) (args : list string) (cwd : option string)
| GKill (p : ChildProcess).

(** How [spawn(javaPath, ['-version'])] ends in [getJavaVersion]. *)
Inductive ProbeOutcome : Type :=
| probe_throws
| probe_error
| probe_close (exit_code : option Z) (stderr_output : string).

Record GEnv : Type := mkGEnv {
  getGameDirectory : option string;
    (* configManager.getGameDirectory(); [None] for a config manager without
       that method, as the [HCLConfigManager] of this repository, which has
       [getConfig] and [getPaths] only *)
  access : string -> bool;            (* fs.access(path) succeeds *)
  version_probe : string -> ProbeOutcome;
  spawn_game : string -> list string -> option ChildProcess;
    (* spawn(javaPath, args, options), or [None] when it throws *)
  join : list string -> string        (* path.join *)
}.

(** The fields of [this]. *)
Record Manager : Type := mkManager {
  gm_gameProcess : option ChildProcess;
  gm_isRunning : bool
}.

Record GState : Type := mkGState {
  manager : Manager;
  gtrace : list GEffect
}.

Definition new_manager : Manager := mkManager None false.

Definition GM (A : Type) : Type := GState -> result A * GState.

Definition gret {A} (a : A) : GM A := fun st => (Return a, st).

Definition gthrow {A} (e : Exn) : GM A := fun st => (Throw e, st).

Definition gbind {A B} (m : GM A) (f : A -> GM B) : GM B :=
  fun st =>
    match m st with
    | (Return a, st') => f a st'
    | (Throw e, st') => (Throw e, st')
    end.

Definition gcatch {A} (m : GM A) (h : Exn -> GM A) : GM A :=
  fun st =>
    match m st with
    | (Throw e, st') => h e st'
    | r => r
    end.

#[global] Instance GM_ret : MRet GM := @gret.
#[global] Instance GM_bind : MBind GM := fun A B f m => gbind m f.

Definition get_manager : GM Manager := fun st => (Return (manager st), st).

Definition set_running (b : bool) : GM unit :=
  fun st =>
    (Return tt, mkGState (mkManager (gm_gameProcess (manager st)) b) (gtrace st)).

Definition set_process (p : ChildProcess) : GM unit :=
  fun st =>
    (Return tt, mkGState (mkManager (Some p) (gm_isRunning (manager st))) (gtrace st)).

Definition geffect (e : GEffect) : GM unit :=
  fun st => (Return tt, mkGState (manager st) (gtrace st ++ [e])).

Section WithEnv.

Context (env : GEnv).

(** [this.configManager.getGameDirectory()]: calling a method that the
    config manager does not have throws. *)
Definition game_directory : GM string :=
  match getGameDirectory env with
  | Some gameDir => gret gameDir
  | None =>
      gthrow (TypeError "this.configManager.getGameDirectory is not a function")
  end.

(** The array of [generateGameArgs], given what the two calls of
    [getGameDirectory] returned. *)
Definition game_arguments (gameDir assetsRoot : string) (version : VersionRef)
    (account : Account) : list string :=
  ["net.minecraft.client.main.Main";
   "--username"; username account;
   "--version"; version_id version;
   "--gameDir"; gameDir;
   "--assetsDir"; join env [assetsRoot; "assets"];
   "--assetIndex"; version_assets version;
   "--uuid"; JS.or_else (uuid account) "offline-uuid";
   "--accessToken"; JS.or_else (accessToken account) "0";
   "--userType"; "mojang";
   "--versionType"; "release"] ++
  (if String.eqb (acc_type account) "offline" then ["--demo"] else []).

(** [generateGameArgs(version, account)] *)
Definition generateGameArgs (version : VersionRef) (account : Account)
  : GM (list string) :=
  gameDir ← game_directory;
  assetsRoot ← game_directory;
  gret (game_arguments gameDir assetsRoot version account).

(** [getJavaVersion(javaPath)]: the text of the error stream when the
    probe exits with code 0. *)
Definition getJavaVersion (javaPath : string) : GM string :=
  match version_probe env javaPath with
  | probe_throws => gthrow (Error "spawn failed")
  | probe_error => geffect (GSpawn javaPath ["-version"] None);; gthrow (Error "spawn error")
  | probe_close exit_code output =>
      geffect (GSpawn javaPath ["-version"] None);;
      match exit_code with
      | Some 0 => gret output
      | _ => gthrow (Error "Java版本检查失败: ")
      end
  end.

(** [validateJavaPath(javaPath)]; the advice to use Java 8 is a console
    warning. *)
Definition validateJavaPath (javaPath : string) : GM unit :=
  gcatch
    (if access env javaPath then
       versionOutput ← getJavaVersion javaPath;
       gret tt
     else gthrow (Error "ENOENT"))
    (fun _ => gthrow (Error ("Java路径无效: " +:+ javaPath))).

Record GLaunchResult : Type := mkGResult {
  g_success : bool;
  g_pid : option Z
}.

Definition launchGame (launchConfig : GameLaunch) : GM GLaunchResult :=
  m ← get_manager;
  if gm_isRunning m then gthrow (Error "游戏正在运行中")
  else
    gcatch
      (gameDir ← game_directory;
       let jvmArgs :=
         GameManager.generateJVMArgs (gl_memory launchConfig) gameDir
           (gl_account launchConfig) in
       gameArgs ←
         generateGameArgs (gl_version launchConfig) (gl_account launchConfig);
       validateJavaPath (gl_javaPath launchConfig);;
       match spawn_game env (gl_javaPath launchConfig) (jvmArgs ++ gameArgs) with
       | None => gthrow (Error "spawn failed")
       | Some p =>
           geffect (GSpawn (gl_javaPath launchConfig) (jvmArgs ++ gameArgs)
                      (Some gameDir));;
           set_process p;;
           set_running true;;
           gret (mkGResult true (pid p))
       end)
      (fun error => set_running false;; gthrow error).

(** [stopGame()] *)
Definition stopGame : GM bool :=
  m ← get_manager;
  match gm_gameProcess m with
  | Some p =>
      if gm_isRunning m then
        geffect (GKill p);; set_running false;; gret true
      else gret false
  | None => gret false
  end.

End WithEnv.

(** The listeners that [launchGame] installs. *)
Definition on_data (channel : Channel) (output : string) : GM unit :=
  geffect (GEmit (gm_output channel output)).

Definition on_close (exit_code : option Z) : GM unit :=
  set_running false;; geffect (GEmit (gm_exit_normal exit_code)).

Definition on_error (message : string) : GM unit :=
  set_running false;; geffect (GEmit (gm_exit_error message)).

(** The calls a caller drives a manager with before any process exists,
    and the state after one of them, and after a sequence of them. *)
Inductive Operation : Type :=
| op_launch (launchConfig : GameLaunch)
| op_stop.

Definition perform (env : GEnv) (st : GState) (op : Operation) : GState :=
  match op with
  | op_launch launchConfig => snd (launchGame env launchConfig st)
  | op_stop => snd (stopGame st)
  end.

Definition perform_all (env : GEnv) (ops : list Operation) (st : GState)
  : GState :=
  fold_left (perform env) ops st.

End HCLGameManager.

(* ================================================================== *)
(** ** Further states and installations for the worked examples *)
(* ================================================================== *)

Module Sample2.

Definition java7 : JavaInfo :=
  mkJavaInfo "/opt/jdk7/bin/java" (VNum 7) "Oracle" "64-bit" "JDK" true.

(** A launcher whose scan found a Java 7 only. *)
Definition only_java7 : State :=
  mkState (mkLauncher None false [] [java7] ∅ None) [].

(** A session whose process the operating system could not start: the
    handle has no [pid]. *)
Definition orphan : State :=
  mkState (mkLauncher (Some (mkProcess None)) true [] [] ∅ None) [].

(** The installation of [Sample.linux], on Windows. *)
Definition windows : Env :=
  mkEnv "win32" (fun _ => None) Sample.config (fun _ => None)
    (fun _ => Some []) (fun _ => None)
    (fun _ _ => Some (mkProcess (Some 77)))
    PosixPath.join PosixPath.dirname PosixPath.delimiter.

(** The game manager as the application wires it, with the config manager
    of the repository. *)
Definition application_env : HCLGameManager.GEnv :=
  HCLGameManager.mkGEnv None
    (fun javaPath => String.eqb javaPath "/usr/bin/java")
    (fun _ => HCLGameManager.probe_close (Some 0) Sample.openjdk8_banner)
    (fun _ _ => Some (mkProcess (Some 4242)))
    PosixPath.join.

(** The game manager with a config manager that answers
    [getGameDirectory()]: one Java, whose probe ends as [outcome], and a
    request for it. *)
Definition manager_env (outcome : HCLGameManager.ProbeOutcome)
  : HCLGameManager.GEnv :=
  HCLGameManager.mkGEnv (Some "/home/steve/.minecraft")
    (fun javaPath => String.eqb javaPath "/usr/bin/java")
    (fun _ => outcome)
    (fun _ _ => Some (mkProcess (Some 4242)))
    PosixPath.join.

Definition game_launch : HCLGameManager.GameLaunch :=
  HCLGameManager.mkGameLaunch Sample.steve
    (HCLGameManager.mkVersion "1.20.1" "5") "/usr/bin/java" 2048.

Definition idle : HCLGameManager.GState :=
  HCLGameManager.mkGState HCLGameManager.new_manager [].

End Sample2.

(* ================================================================== *)
(** ** Predicates of the further statements *)
(* ================================================================== *)

(** The number a candidate is ranked by, and the key it is deduplicated
    by. *)
Definition rank (j : JavaInfo) : Z :=
  JavaLauncher.parseInt_or_0 (java_version j).

Definition candidate_key (j : JavaInfo) : string :=
  JavaLauncher.version_to_string (java_version j) +:+ "-" +:+ java_path j.



(** The map of a scan: its keys are distinct and are the keys of its
    values. *)
Definition keyed (m : list (string * JavaInfo)) : Prop :=
  NoDup (map fst m) /\ Forall (fun kv => fst kv = candidate_key (snd kv)) m.

(** The version text a line gives, if any: [versionMatch[1]]. *)
Definition line_match (line : string) : option string :=
  match JavaLauncher.match1 JavaLauncher.re_version line with
  | Some v => Some v
  | None => JavaLauncher.match1 JavaLauncher.re_build line
  end.

(** Effects on processes. *)
Definition is_process_effect (e : Effect) : bool :=
  match e with
  | Spawn _ _ _ _ _ | Kill _ _ => true
  | _ => false
  end.

(** The arguments the game manager starts the game with,
    [[...jvmArgs, ...gameArgs]], when the game directory is [gameDir]. *)
Definition game_args (env : HCLGameManager.GEnv) (gameDir : string)
    (launchConfig : HCLGameManager.GameLaunch) : list string :=
  GameManager.generateJVMArgs (HCLGameManager.gl_memory launchConfig) gameDir
    (HCLGameManager.gl_account launchConfig) ++
  HCLGameManager.game_arguments env gameDir gameDir
    (HCLGameManager.gl_version launchConfig)
    (HCLGameManager.gl_account launchConfig).

(** The state of a launcher that has never had a process. *)
Definition never_started (st : State) : Prop :=
  gameProcess (this st) = None /\
  isRunning (this st) = false /\
  gameOutput (this st) = [] /\
  currentVersionInfo (this st) = None /\
  Forall (fun e => is_process_effect e = false) (trace st).


(* ================================================================== *)
(** * Properties *)
(* ================================================================== *)

Example parseInt_examples :
  JS.parseInt "8" = Some 8 /\ JS.parseInt "25" = Some 25 /\
  JS.parseInt "abc" = None /\ JS.parseInt "  -17rest" = Some (-17) /\
  JS.parseInt "0x1F" = Some 31 /\ JS.parseInt "0_301" = Some 0 /\
  JS.parseInt "" = None /\ JS.parseInt "-" = None.
Proof. repeat split; reflexivity. Qed.

Example number_to_string_examples :
  JS.number_to_string 2048 = "2048" /\ JS.number_to_string 0 = "0" /\
  JS.number_to_string (-5) = "-5".
Proof. repeat split; reflexivity. Qed.

Example ToNumber_examples :
  JS.number_lt (JS.ToNumber "abc") 8 = false /\
  JS.number_lt (JS.ToNumber " ") 8 = true /\
  JS.number_lt (JS.ToNumber "0b101") 8 = true /\
  JS.number_lt (JS.ToNumber "1e1") 8 = false /\
  JS.number_lt (JS.ToNumber "7.5") 8 = true /\
  JS.number_lt (JS.ToNumber "-Infinity") 8 = true /\
  JS.number_lt (JS.ToNumber "0x") 8 = false.
Proof. repeat split; reflexivity. Qed.

Example split_examples :
  JS.split "." "1.8.0_301" = ["1"; "8"; "0_301"] /\
  JS.split "." "" = [""] /\ JS.split "." "1." = ["1"; ""] /\
  JS.trim "  /usr/bin/java  " = "/usr/bin/java".
Proof. repeat split; reflexivity. Qed.

Example md5_test_vectors :
  MD5.md5_hex "" = "d41d8cd98f00b204e9800998ecf8427e" /\
  MD5.md5_hex "OfflinePlayer:Steve" = "5627dd98e6bebc21f8a8e92344183641" /\
  MD5.md5_hex "aaaaaaaaaaaaaaaaaaaaaaaaaaaaaaaaaaaaaaaaaaaaaaaaaaaaaaaaaaaaaaaaaaaaaa"
    = "0f5c6c4e740bfcc08c3c26ccb2673d46".
Proof. repeat split; vm_compute; reflexivity. Qed.

Example posix_path_examples :
  PosixPath.join ["/home/u/.minecraft"; "libraries"; "com/a/a.jar"]
    = "/home/u/.minecraft/libraries/com/a/a.jar" /\
  PosixPath.join ["a"; ""; "../b/"; "./c"] = "b/c" /\
  PosixPath.join ["/"; ".."; "x"] = "/x" /\
  PosixPath.join [] = "." /\
  PosixPath.dirname "/usr/lib/jvm/java-8/bin/java" = "/usr/lib/jvm/java-8/bin" /\
  PosixPath.dirname "/usr" = "/" /\ PosixPath.dirname "java" = "." /\
  PosixPath.dirname "a/b/" = "a".
Proof. repeat split; reflexivity. Qed.

Example regex_examples :
  JavaLauncher.match1 JavaLauncher.re_build "(build 25.301-b09, mixed mode)"
  = Some "25.301-b09, mixed mode" /\
  JavaLauncher.match1 JavaLauncher.re_build "x (build  ) y" = Some " " /\
  JavaLauncher.match1 JavaLauncher.re_build "(build 1.8" = None /\
  JavaLauncher.match1 JavaLauncher.re_version
    ("java version  " +:+ JavaLauncher.quoted "17.0.1" +:+ " 2021-10-19")
  = Some "17.0.1" /\
  JavaLauncher.match1 JavaLauncher.re_version "version 17" = None.
Proof. repeat split; reflexivity. Qed.

Example replace_examples :
  Regex.replace_all (Regex.lit "${classpath}") "/l/a.jar:/v/c.jar" "${classpath}"
  = "/l/a.jar:/v/c.jar" /\
  Regex.replace_all (Regex.lit "${natives_directory}") "/v/natives"
    "-Djava.library.path=${natives_directory}"
  = "-Djava.library.path=/v/natives" /\
  Regex.replace_all (Regex.lit "${classpath}") "x" "-cp" = "-cp" /\
  Regex.replace_all (Regex.lit "aa") "b" "aaaaa" = "bba" /\
  Regex.replace_all (Regex.lit "${classpath}") "a$&b$$c" "x${classpath}y"
  = "xa${classpath}b$cy" /\
  Regex.substitution "m" "pre" "post" ["one"; "two"] "$1$2$3$02$$$`$'$"
  = "onetwo$3two$prepost$".
Proof. repeat split; reflexivity. Qed.

Lemma greedy_consumes c g k :
  (forall acc s, consumes acc s (k acc s)) ->
  forall s acc, consumes acc s (Regex.greedy c g k acc s).
Proof.
  intros Hk. induction s as [| a s IH]; intros acc m post; simpl; [discriminate |].
  destruct (c a); [| discriminate].
  destruct (Regex.greedy c g k (acc ++ [(g, a)]) s) as [[m' post'] |] eqn:Hmore.
  - intros [= <- <-]. specialize (IH _ _ _ Hmore).
    rewrite length_app in IH. simpl in IH. lia.
  - intros Hrest. specialize (Hk _ _ _ _ Hrest).
    rewrite length_app in Hk. simpl in Hk. lia.
Qed.

Lemma match_here_consumes r : forall acc s, consumes acc s (Regex.match_here r acc s).
Proof.
  induction r as [| it r IH]; intros acc s; simpl.
  - intros m post [= <- <-]. reflexivity.
  - destruct (Regex.qnt it).
    + destruct s as [| a s]; [intros m post; discriminate |].
      destruct (Regex.cls it a); [| intros m post; discriminate].
      intros m post Hm. specialize (IH _ _ _ _ Hm).
      rewrite length_app in IH. simpl in IH |- *. lia.
    + apply greedy_consumes. exact IH.
Qed.

(** More fuel than the subject has characters is enough fuel. *)
Lemma replace_all_from_fuel r tmpl :
  forall fuel1 fuel2 done s,
    (String.length s < fuel1)%nat -> (String.length s < fuel2)%nat ->
    Regex.replace_all_from fuel1 r tmpl done s
    = Regex.replace_all_from fuel2 r tmpl done s.
Proof.
  induction fuel1 as [| fuel1 IH]; intros fuel2 done s H1 H2; [lia |].
  destruct fuel2 as [| fuel2]; [lia |]. simpl.
  destruct (Regex.match_here r [] s) as [[[| x m] post] |] eqn:Hm.
  - destruct s as [| a s]; [reflexivity |].
    simpl in H1, H2. f_equal. apply IH; lia.
  - pose proof (match_here_consumes r [] s _ _ Hm) as Hlen. simpl in Hlen.
    f_equal. apply IH; lia.
  - destruct s as [| a s]; [reflexivity |].
    simpl in H1, H2. f_equal. apply IH; lia.
Qed.

Import JavaLauncher.

(** Running a sequence whose first step returns, or throws. *)
Lemma bind_Return {A B} (m : M A) (f : A -> M B) st a st' :
  m st = (Return a, st') -> (m ≫= f) st = f a st'.
Proof. intros H. unfold mbind, M_bind, bind. rewrite H. reflexivity. Qed.

Lemma bind_Throw {A B} (m : M A) (f : A -> M B) st e st' :
  m st = (Throw e, st') -> (m ≫= f) st = (Throw e, st').
Proof. intros H. unfold mbind, M_bind, bind. rewrite H. reflexivity. Qed.

(* ================================================================== *)
(** ** The single-session guard of [launchGame] *)
(* ================================================================== *)

(** C1. When a session is running ([isRunning] is true), [launchGame]
    throws the error of its guard at once: the state after the call is the
    state before it, so [isRunning], [gameProcess] and [gameOutput] are
    untouched, nothing was validated or cached, and the trace is the same
    (no process spawned, no event emitted). *)
Theorem launchGame_already_running :
  forall (env : Env) (launchConfig : LaunchConfig) (st : State),
    isRunning (this st) = true ->
    launchGame env launchConfig st = (Throw (Error "游戏正在运行中"), st).
Proof.
  intros env launchConfig st Hrun.
  unfold launchGame, mbind, M_bind, bind, get_this.
  rewrite Hrun. reflexivity.
Qed.

Lemma launchGame_already_running_witness :
  isRunning (this Sample.running) = true /\
  launchGame (Sample.linux Sample.openjdk8_banner) Sample.request Sample.running
  = (Throw (Error "游戏正在运行中"), Sample.running).
Proof.
  split; [reflexivity |].
  apply (launchGame_already_running
           (Sample.linux Sample.openjdk8_banner) Sample.request Sample.running).
  reflexivity.
Defined.

(* ================================================================== *)
(** ** [stopGame] without a running session *)
(* ================================================================== *)

(** C8. With no process handle, or with [isRunning] false, [stopGame]
    returns [false] and leaves the state and the trace as they were: no
    event is emitted and no signal is sent. *)
Theorem stopGame_not_running :
  forall (env : Env) (st : State),
    gameProcess (this st) = None \/ isRunning (this st) = false ->
    stopGame env st = (Return false, st).
Proof.
  intros env st Hguard.
  unfold stopGame, mbind, M_bind, bind, get_this.
  destruct (gameProcess (this st)) as [p |] eqn:Hp.
  - destruct Hguard as [Hnone | Hstopped]; [discriminate |].
    rewrite Hstopped. reflexivity.
  - reflexivity.
Qed.

Lemma stopGame_not_running_witness :
  (gameProcess (this Sample.fresh) = None \/ isRunning (this Sample.fresh) = false) /\
  stopGame (Sample.linux Sample.openjdk8_banner) Sample.fresh
  = (Return false, Sample.fresh).
Proof.
  split; [left; reflexivity |].
  apply (stopGame_not_running (Sample.linux Sample.openjdk8_banner) Sample.fresh).
  left. reflexivity.
Defined.

(* ================================================================== *)
(** ** [getGameOutput] *)
(* ================================================================== *)

Lemma slice_from_negative {A} (n : Z) (l : list A) :
  1 <= n ->
  slice_from (- n) l
  = drop (length l - Z.to_nat (Z.min n (Z.of_nat (length l)))) l.
Proof.
  intros Hn. unfold slice_from.
  destruct (Z.ltb_spec (- n) 0) as [_ | Hge]; [| lia].
  f_equal. lia.
Qed.

(** C10. For a limit [n >= 1], [getGameOutput(n)] is the tail of the buffer
    made of its last [min n (length buffer)] records, in buffer order; for
    [n = 0] it is the whole buffer. *)
Theorem getGameOutput_spec :
  forall (l : Launcher) (n : Z),
    (1 <= n ->
     exists older : list OutputRecord,
       gameOutput l = older ++ getGameOutput (Some n) l /\
       Z.of_nat (length (getGameOutput (Some n) l))
       = Z.min n (Z.of_nat (length (gameOutput l)))) /\
    getGameOutput (Some 0) l = gameOutput l.
Proof.
  intros l n. split.
  - intros Hn. unfold getGameOutput. simpl default.
    rewrite (slice_from_negative n (gameOutput l) Hn).
    set (buf := gameOutput l).
    set (k := (length buf - Z.to_nat (Z.min n (Z.of_nat (length buf))))%nat).
    exists (take k buf). split.
    + symmetry. apply take_drop.
    + rewrite length_drop. subst k. lia.
  - unfold getGameOutput, slice_from. simpl default.
    change (- 0 <? 0) with false. cbv iota.
    rewrite Z.min_l by lia. reflexivity.
Qed.

Lemma getGameOutput_spec_witness :
  1 <= 1 /\
  exists older : list OutputRecord,
    gameOutput (this Sample.running)
    = older ++ getGameOutput (Some 1) (this Sample.running) /\
    Z.of_nat (length (getGameOutput (Some 1) (this Sample.running)))
    = Z.min 1 (Z.of_nat (length (gameOutput (this Sample.running)))).
Proof.
  split; [lia |].
  apply (proj1 (getGameOutput_spec (this Sample.running) 1)). lia.
Defined.

(* ================================================================== *)
(** ** The classifier of the error stream *)
(* ================================================================== *)

Lemma scan_rules_first_match rules output st :
  exists diagnostics : list Effect,
    scan_rules rules output st
    = (Return tt, mkState (this st) (trace st ++ diagnostics)) /\
    first_match_only rules output diagnostics.
Proof.
  induction rules as [| [pattern message] rest IH].
  - exists []. split.
    + simpl. unfold ret. rewrite app_nil_r. destruct st; reflexivity.
    + left. split; [reflexivity |]. intros i p m Hi. discriminate.
  - simpl. destruct (Regex.test pattern output) eqn:Htest.
    + exists [Emit (game_error_detected output message)]. split; [reflexivity |].
      right. exists 0%nat, pattern, message.
      repeat split; try reflexivity; try assumption.
      intros j p m Hj. lia.
    + destruct IH as [diagnostics [Hrun Hfirst]].
      exists diagnostics. split; [exact Hrun |].
      destruct Hfirst as [[Hnil Hnone] | [i [p [m [Hi [Hp [Hbefore Hd]]]]]]].
      * left. split; [exact Hnil |].
        intros [| i] p m Hi; simpl in Hi.
        -- injection Hi as <- <-. exact Htest.
        -- exact (Hnone i p m Hi).
      * right. exists (S i), p, m. repeat split; try assumption.
        intros [| j] p' m' Hj Hlook; simpl in Hlook.
        -- injection Hlook as <- <-. exact Htest.
        -- apply (Hbefore j p' m'); [lia | exact Hlook].
Qed.

(** C7. For every chunk of the error stream, the listener appends the
    record to [gameOutput] and emits it as [game-output] unchanged, and
    then emits at most one [game-error-detected]: that of the first rule,
    in the order out-of-memory, missing main class, authentication failure,
    download failure, invalid access token, whose pattern matches; the
    rules after it are not reported. *)
Theorem on_stderr_data_classifies :
  forall (output : string) (now : Z) (st : State),
    map snd errorPatterns
    = ["内存不足，请增加分配的内存"; "游戏文件损坏，请重新安装";
       "账户认证失败，请重新登录"; "文件下载失败，请检查网络连接";
       "访问令牌无效，请重新登录"] /\
    map fst errorPatterns
    = map Regex.of_pattern
        ["java.lang.OutOfMemoryError"; "Could not find or load main class";
         "Authentication failed"; "Failed to download"; "Invalid access token"] /\
    exists diagnostics : list Effect,
      on_stderr_data output now st
      = (Return tt,
         mkState
           (set_gameOutput
              (gameOutput (this st) ++ [mkOutput stderr output now]) (this st))
           (trace st ++ [Emit (game_output stderr output)] ++ diagnostics)) /\
      (length diagnostics <= 1)%nat /\
      first_match_only errorPatterns output diagnostics.
Proof.
  intros output now st.
  split; [reflexivity |]. split; [reflexivity |].
  unfold on_stderr_data, checkForErrors, push_output, emit, effect, modify.
  unfold mbind, M_bind, bind. cbv beta iota. cbn [this trace].
  destruct (scan_rules_first_match errorPatterns output
              (mkState
                 (set_gameOutput
                    (gameOutput (this st) ++ [mkOutput stderr output now]) (this st))
                 (trace st ++ [Emit (game_output stderr output)])))
    as [diagnostics [Hrun Hfirst]].
  exists diagnostics. split.
  - rewrite Hrun. cbn [this trace]. rewrite <- app_assoc. reflexivity.
  - split; [| exact Hfirst].
    destruct Hfirst as [[-> _] | [i [p [m [_ [_ [_ ->]]]]]]]; simpl; lia.
Qed.

(** A record that matches two rules reports the first only, and the
    pattern's dots stand for any character. *)
Example classifier_priority :
  trace (snd (on_stderr_data "Failed to download: java.lang.OutOfMemoryError"
                3 Sample.fresh))
  = [Emit (game_output stderr "Failed to download: java.lang.OutOfMemoryError");
     Emit (game_error_detected "Failed to download: java.lang.OutOfMemoryError"
             "内存不足，请增加分配的内存")] /\
  trace (snd (on_stderr_data "Invalid access token; Authentication failed"
                3 Sample.fresh))
  = [Emit (game_output stderr "Invalid access token; Authentication failed");
     Emit (game_error_detected "Invalid access token; Authentication failed"
             "账户认证失败，请重新登录")] /\
  trace (snd (on_stderr_data "javaXlangXOutOfMemoryError" 3 Sample.fresh))
  = [Emit (game_output stderr "javaXlangXOutOfMemoryError");
     Emit (game_error_detected "javaXlangXOutOfMemoryError"
             "内存不足，请增加分配的内存")] /\
  trace (snd (on_stderr_data "all good" 3 Sample.fresh))
  = [Emit (game_output stderr "all good")].
Proof. repeat split; reflexivity. Qed.

(* ================================================================== *)
(** ** Printing a number and parsing it back *)
(* ================================================================== *)

Lemma uint_value_of_uint_acc d acc :
  Z.pos (Pos.of_uint_acc d acc) = uint_value d (Z.pos acc).
Proof.
  revert acc. induction d; intros acc; simpl; try reflexivity;
    rewrite IHd; f_equal; lia.
Qed.

Lemma uint_value_of_uint d : Z.of_N (Pos.of_uint d) = uint_value d 0.
Proof.
  induction d; simpl; try reflexivity; try exact IHd;
    rewrite uint_value_of_uint_acc; reflexivity.
Qed.

Lemma read_digits_uint d n acc :
  JS.read_digits 10 (NilEmpty.string_of_uint d) n acc
  = ((n + Decimal.nb_digits d)%nat, uint_value d acc, "").
Proof.
  revert n acc. induction d; intros n acc; simpl.
  1: { f_equal. f_equal. lia. }
  all: rewrite IHd; f_equal; f_equal; [lia | f_equal; unfold JS.code; simpl; lia].
Qed.

Lemma parse_magnitude_uint d :
  d <> Decimal.Nil ->
  JS.parse_magnitude (NilEmpty.string_of_uint d) = Some (uint_value d 0).
Proof.
  intros Hd. unfold JS.parse_magnitude.
  match goal with
  | |- (let '(_, _) := ?m in _) = _ =>
      assert (Hradix : m = (10, NilEmpty.string_of_uint d))
  end.
  { destruct d as [| d | d | d | d | d | d | d | d | d | d]; [congruence | ..].
    all: destruct d as [| d | d | d | d | d | d | d | d | d | d]; reflexivity. }
  rewrite Hradix, read_digits_uint.
  destruct d; [congruence | reflexivity ..].
Qed.

Lemma parseInt_number_to_string n : JS.parseInt (JS.number_to_string n) = Some n.
Proof.
  unfold JS.number_to_string, JS.parseInt.
  destruct n as [| p | p]; [reflexivity | |].
  all: simpl Z.to_int; unfold NilZero.string_of_int, NilZero.string_of_uint.
  all: pose proof (Unsigned.to_uint_nonnil p) as Hnil.
  all: pose proof (parse_magnitude_uint (Pos.to_uint p) Hnil) as Hparse.
  all: rewrite <- uint_value_of_uint, Unsigned.of_to in Hparse.
  all: destruct (Pos.to_uint p) as [| d | d | d | d | d | d | d | d | d | d];
    [congruence | ..].
  all: cbn [JS.trimStart NilEmpty.string_of_uint]; simpl JS.is_space; cbv iota.
  all: simpl JS.read_sign; cbv iota beta.
  all: cbn [NilEmpty.string_of_uint] in Hparse; rewrite Hparse; reflexivity.
Qed.

Lemma parseInt_or_0_number n : parseInt_or_0 (VNum n) = n.
Proof.
  unfold parseInt_or_0, version_to_string.
  rewrite parseInt_number_to_string. reflexivity.
Qed.

(* ================================================================== *)
(** ** The heap flags of the argument builders *)
(* ================================================================== *)

(** C4, as stated, fails: for a request of 2048 megabytes the launcher's
    builder sets the minimum heap to a half and the game manager's builder
    to a quarter. *)
Lemma min_heap_fraction_differs :
  heap_flag "-Xms"
    (fst (prepareLaunchArguments (Sample.linux Sample.openjdk8_banner)
            Sample.steve Sample.manifest 2048 Sample.java8))
  = Some "-Xms1024M" /\
  heap_flag "-Xms" (GameManager.generateJVMArgs 2048 "/home/u/.minecraft" Sample.steve)
  = Some "-Xms512M" /\
  heap_flag "-Xms"
    (fst (prepareLaunchArguments (Sample.linux Sample.openjdk8_banner)
            Sample.steve Sample.manifest 2048 Sample.java8))
  <> heap_flag "-Xms"
       (GameManager.generateJVMArgs 2048 "/home/u/.minecraft" Sample.steve).
Proof.
  split; [reflexivity |]. split; [reflexivity |]. discriminate.
Qed.

(** C4, amended. Every builder puts the maximum-heap flag [-Xmx<M>M] in
    its list; the minimum-heap flag is [-Xms<floor(M/2)>M] in
    [prepareLaunchArguments] and [-Xms<floor(M/4)>M] in
    [GameManager.generateJVMArgs] and in [optimizeJVMArgs]. *)
Theorem heap_flags_per_builder :
  forall (env : Env) (account : Account) (versionInfo : Manifest)
         (javaInfo : JavaInfo) (dir : string) (javaVersion : Z)
         (osType : string) (memory : Z),
    0 <= memory < 2 ^ 53 ->
    let launcher := fst (prepareLaunchArguments env account versionInfo memory javaInfo) in
    let manager := GameManager.generateJVMArgs memory dir account in
    let optimized := optimizeJVMArgs javaVersion memory osType in
    heap_flag "-Xmx" launcher = Some ("-Xmx" +:+ JS.number_to_string memory +:+ "M") /\
    heap_flag "-Xmx" manager = Some ("-Xmx" +:+ JS.number_to_string memory +:+ "M") /\
    heap_flag "-Xmx" optimized = Some ("-Xmx" +:+ JS.number_to_string memory +:+ "M") /\
    heap_flag "-Xms" launcher
    = Some ("-Xms" +:+ JS.number_to_string (memory / 2) +:+ "M") /\
    heap_flag "-Xms" manager
    = Some ("-Xms" +:+ JS.number_to_string (memory / 4) +:+ "M") /\
    heap_flag "-Xms" optimized
    = Some ("-Xms" +:+ JS.number_to_string (memory / 4) +:+ "M").
Proof.
  intros env account versionInfo javaInfo dir javaVersion osType memory _.
  repeat split; reflexivity.
Qed.

Lemma heap_flags_per_builder_witness :
  0 <= 2048 < 2 ^ 53 /\
  heap_flag "-Xmx"
    (fst (prepareLaunchArguments (Sample.linux Sample.openjdk8_banner)
            Sample.steve Sample.manifest 2048 Sample.java8))
  = Some "-Xmx2048M".
Proof.
  split; [lia |].
  apply (heap_flags_per_builder (Sample.linux Sample.openjdk8_banner)
           Sample.steve Sample.manifest Sample.java8 "/home/u/.minecraft"
           8 "linux" 2048).
  lia.
Defined.

(* ================================================================== *)
(** ** Validation of the runtime *)
(* ================================================================== *)

(** C6, as stated, fails: the runtime at [/usr/bin/java] is probed as a
    Java 7, and [validateJava] throws an [Error]; it returns no value. *)
Lemma validateJava_throws_on_java7 :
  fst (checkJavaVersion (Sample.linux Sample.java7_banner) "/usr/bin/java"
         Sample.fresh)
  = Return (Some (mkJavaInfo "/usr/bin/java" (VNum 7) "" "64-bit" "JRE" true)) /\
  fst (validateJava (Sample.linux Sample.java7_banner) (Some "/usr/bin/java")
         Sample.fresh)
  = Throw (Error "Java 版本过低 (7)，需要 Java 8 或更高版本").
Proof. split; vm_compute; reflexivity. Qed.

Lemma number_lt_integer n k :
  JS.number_lt (JS.Finite (inject_Z n)) k = (n <? k).
Proof.
  unfold JS.number_lt, Qcompare, inject_Z. simpl.
  rewrite !Z.mul_1_r. unfold Z.ltb. destruct (n ?= k); reflexivity.
Qed.

(** C6, amended. A runtime configured by its path and probed with a
    number below 8 as its version is rejected by [validateJava] with a
    thrown [Error] that names the version; [checkJavaCompatibility] answers
    the same version with the value [{compatible: false, message}] and
    does not throw. *)
Theorem low_version_rejected :
  forall (env : Env) (javaPath : string) (st st' : State)
         (javaInfo : JavaInfo) (n : Z),
    JS.truthy javaPath = true ->
    checkJavaVersion env javaPath st = (Return (Some javaInfo), st') ->
    java_version javaInfo = VNum n ->
    n < 8 ->
    validateJava env (Some javaPath) st
    = (Throw (Error ("Java 版本过低 (" +:+ JS.number_to_string n +:+
                     ")，需要 Java 8 或更高版本")), st') /\
    checkJavaCompatibility (java_version javaInfo)
    = mkCompat false (Some "需要 Java 8 或更高版本") None.
Proof.
  intros env javaPath st st' javaInfo n Hpath Hprobe Hversion Hlow.
  split.
  - unfold validateJava, JS.truthy_opt. rewrite Hpath. cbn [negb]. cbv iota.
    unfold mbind, M_bind, bind. simpl default. rewrite Hprobe.
    rewrite Hversion. cbn [version_to_number version_to_string]. rewrite number_lt_integer.
    destruct (Z.ltb_spec n 8) as [_ | Hge]; [| lia].
    reflexivity.
  - unfold checkJavaCompatibility. rewrite Hversion, parseInt_or_0_number.
    destruct (Z.ltb_spec n 8) as [_ | Hge]; [| lia].
    reflexivity.
Qed.

Lemma low_version_rejected_witness :
  fst (validateJava (Sample.linux Sample.java7_banner) (Some "/usr/bin/java")
         Sample.fresh)
  = Throw (Error ("Java 版本过低 (" +:+ JS.number_to_string 7 +:+
                  ")，需要 Java 8 或更高版本")) /\
  checkJavaCompatibility (VNum 7)
  = mkCompat false (Some "需要 Java 8 或更高版本") None.
Proof.
  pose proof (low_version_rejected (Sample.linux Sample.java7_banner)
                "/usr/bin/java" Sample.fresh
                (snd (checkJavaVersion (Sample.linux Sample.java7_banner)
                        "/usr/bin/java" Sample.fresh))
                (mkJavaInfo "/usr/bin/java" (VNum 7) "" "64-bit" "JRE" true) 7
                eq_refl) as H.
  destruct H as [Hthrow Hcompat]; [vm_compute; reflexivity | reflexivity | lia |].
  split; [rewrite Hthrow; reflexivity | exact Hcompat].
Defined.

(* ================================================================== *)
(** ** Discovery of the installed runtimes *)
(* ================================================================== *)

(** C9, as stated, fails: a runtime whose banner has a version string that
    is not a number is returned, with that string as its version. *)
Lemma detectJavaVersions_returns_unparsed_version :
  fst (detectJavaVersions (Sample.linux Sample.unnumbered_banner) Sample.fresh)
  = Return [mkJavaInfo "/usr/bin/java" (VStr "abc") "" "64-bit" "JRE" true] /\
  JS.parseInt "abc" = None.
Proof. split; vm_compute; reflexivity. Qed.

Lemma version_field_well_formed s :
  JS.truthy s = true -> version_well_formed (version_field s) = true.
Proof.
  intros Hs. unfold version_field.
  destruct (JS.parseInt s) as [n |] eqn:Hparse.
  - destruct (n =? 0) eqn:Hn; simpl.
    + rewrite Hs, Hparse, Hn. reflexivity.
    + rewrite Hn. reflexivity.
  - simpl. rewrite Hs, Hparse. reflexivity.
Qed.

Lemma parseJavaVersion_ok output javaPath j :
  parseJavaVersion output javaPath = Some j -> candidate_ok j.
Proof.
  unfold parseJavaVersion.
  destruct (JS.truthy (b_version _)) eqn:Hv; simpl; [| discriminate].
  intros [= <-]. apply version_field_well_formed. exact Hv.
Qed.

(** A probe does not throw, keeps the cache well formed and answers
    [null] or a well-formed candidate. *)
Lemma checkJavaVersion_ok env javaPath st :
  cache_ok (this st) ->
  exists r st',
    checkJavaVersion env javaPath st = (Return r, st') /\
    cache_ok (this st') /\
    (forall j, r = Some j -> candidate_ok j).
Proof.
  intros Hcache. unfold checkJavaVersion.
  unfold mbind, M_bind, bind, get_this.
  destruct (javaCache (this st) !! javaPath) as [cached |] eqn:Hlook.
  - exists (Some cached), st. repeat split; try assumption.
    intros j [= <-]. exact (Hcache _ _ Hlook).
  - unfold try_catch, execCommand.
    destruct (exec_output env _) as [versionOutput |]; unfold throw, ret.
    + destruct (parseJavaVersion versionOutput javaPath) as [versionInfo |] eqn:Hparse.
      * eexists _, _. split; [reflexivity |]. split.
        -- intros p j. simpl. intros Hp.
           destruct (decide (javaPath = p)) as [-> | Hne].
           ++ rewrite lookup_insert_eq in Hp. injection Hp as <-.
              exact (parseJavaVersion_ok _ _ _ Hparse).
           ++ rewrite lookup_insert_ne in Hp by exact Hne.
              exact (Hcache _ _ Hp).
        -- intros j [= <-]. exact (parseJavaVersion_ok _ _ _ Hparse).
      * exists None, st. repeat split; try assumption. discriminate.
    + exists None, st. repeat split; try assumption. discriminate.
Qed.

Lemma mapM_checkJavaVersion_ok env paths st :
  cache_ok (this st) ->
  exists rs st',
    mapM (checkJavaVersion env) paths st = (Return rs, st') /\
    cache_ok (this st') /\
    Forall (fun r => forall j, r = Some j -> candidate_ok j) rs.
Proof.
  revert st. induction paths as [| p paths IH]; intros st Hcache.
  - exists [], st. repeat split; [assumption | constructor].
  - destruct (checkJavaVersion_ok env p st Hcache) as [r [st1 [Hr [Hc1 Hok]]]].
    destruct (IH st1 Hc1) as [rs [st2 [Hrs [Hc2 Hall]]]].
    exists (r :: rs), st2. split; [| split; [assumption | constructor; assumption]].
    simpl. rewrite (bind_Return _ _ _ _ _ Hr), (bind_Return _ _ _ _ _ Hrs).
    reflexivity.
Qed.

Lemma findJavaInPath_loop_ok env commands st :
  cache_ok (this st) ->
  exists r st',
    findJavaInPath_loop env commands st = (Return r, st') /\
    cache_ok (this st') /\
    (forall j, r = Some j -> candidate_ok j).
Proof.
  intros Hcache. induction commands as [| cmd rest IH]; simpl.
  - exists None, st. repeat split; [assumption | discriminate].
  - destruct (exec_output env cmd) as [javaPath |]; [| exact IH].
    destruct (JS.truthy javaPath && JS.truthy (JS.trim javaPath)); [| exact IH].
    apply checkJavaVersion_ok. exact Hcache.
Qed.

Lemma add_unique_ok results :
  Forall (fun r => forall j, r = Some j -> candidate_ok j) results ->
  forall acc,
    Forall (fun kv : string * JavaInfo => candidate_ok (snd kv)) acc ->
    Forall (fun kv : string * JavaInfo => candidate_ok (snd kv))
      (fold_left add_unique results acc).
Proof.
  induction 1 as [| r results Hr _ IH]; intros acc Hacc; simpl; [exact Hacc |].
  apply IH. unfold add_unique. destruct r as [javaInfo |]; [| exact Hacc].
  destruct (map_has acc _); [exact Hacc |].
  apply Forall_app. split; [exact Hacc |].
  constructor; [| constructor]. simpl. apply Hr. reflexivity.
Qed.

Lemma sort_insert_Forall {A} (P : A -> Prop) cmp x l :
  P x -> Forall P l -> Forall P (sort_insert cmp x l).
Proof.
  intros Hx. induction 1 as [| y l Hy Hl IH]; simpl.
  - constructor; [exact Hx | constructor].
  - destruct (cmp x y <=? 0).
    + constructor; [exact Hx |]. constructor; assumption.
    + constructor; assumption.
Qed.

Lemma sort_Forall {A} (P : A -> Prop) cmp l :
  Forall P l -> Forall P (sort cmp l).
Proof.
  induction 1 as [| x l Hx Hl IH]; simpl; [constructor |].
  apply sort_insert_Forall; assumption.
Qed.

(** A scan that starts from a cache of earlier probes returns candidates
    whose versions are well formed. *)
Lemma detectJavaVersions_well_formed env st :
  cache_ok (this st) ->
  exists (found : list JavaInfo) (st' : State),
    detectJavaVersions env st = (Return found, st') /\
    javaVersions (this st') = found /\
    Forall candidate_ok found.
Proof.
  intros Hcache. unfold detectJavaVersions.
  set (st0 := mkState (set_javaVersions [] (this st)) (trace st)).
  assert (Hc0 : cache_ok (this st0)) by exact Hcache.
  destruct (mapM_checkJavaVersion_ok env (getCommonJavaPaths env) st0 Hc0)
    as [probes [st1 [Hprobes [Hc1 Hall]]]].
  destruct (findJavaInPath_loop_ok env
              (if String.eqb (platform env) "win32"
               then ["java.exe"; "where java"]
               else ["which java"; "command -v java"]) st1 Hc1)
    as [inPath [st2 [HinPath [Hc2 Hok]]]].
  eexists _, _. split; [| split].
  - rewrite (bind_Return _ _ st tt st0) by reflexivity.
    rewrite (bind_Return _ _ _ _ _ Hprobes).
    unfold findJavaInPath. rewrite (bind_Return _ _ _ _ _ HinPath).
    reflexivity.
  - reflexivity.
  - apply sort_Forall. apply Forall_fmap.
    apply (add_unique_ok (probes ++ [inPath])); [| constructor].
    apply Forall_app. split; [exact Hall |].
    constructor; [exact Hok | constructor].
Qed.

(** C9, amended. For every completed scan that started from a cache of
    earlier probes, every candidate of the returned list has as its version
    either a number other than zero or a non-empty string that [parseInt]
    does not read as such a number. *)
Theorem detectJavaVersions_candidates :
  forall (env : Env) (st st' : State) (found : list JavaInfo),
    cache_ok (this st) ->
    detectJavaVersions env st = (Return found, st') ->
    javaVersions (this st') = found /\
    Forall candidate_ok found.
Proof.
  intros env st st' found Hcache Hdone.
  destruct (detectJavaVersions_well_formed env st Hcache)
    as [found0 [st0 [Hrun Hok]]].
  rewrite Hrun in Hdone. injection Hdone as <- <-. exact Hok.
Qed.

Lemma detectJavaVersions_candidates_witness :
  cache_ok (this Sample.fresh) /\
  javaVersions
    (this (snd (detectJavaVersions (Sample.linux Sample.unnumbered_banner)
                  Sample.fresh)))
  = [mkJavaInfo "/usr/bin/java" (VStr "abc") "" "64-bit" "JRE" true] /\
  Forall candidate_ok
    [mkJavaInfo "/usr/bin/java" (VStr "abc") "" "64-bit" "JRE" true].
Proof.
  assert (Hcache : cache_ok (this Sample.fresh)).
  { intros p j Hlook. simpl in Hlook. rewrite lookup_empty in Hlook. discriminate. }
  split; [exact Hcache |].
  apply (detectJavaVersions_candidates
           (Sample.linux Sample.unnumbered_banner) Sample.fresh); [exact Hcache |].
  rewrite (surjective_pairing
             (detectJavaVersions (Sample.linux Sample.unnumbered_banner)
                Sample.fresh)) at 1.
  f_equal.
Defined.

(* ================================================================== *)
(** ** The offline UUID *)
(* ================================================================== *)

#[local] Arguments String.append : simpl nomatch.

Lemma hex_digit_is_hex_nat (k : nat) :
  (k < 16)%nat -> is_hex_digit (MD5.hex_digit (Z.of_nat k)) = true.
Proof.
  intros Hk. do 16 (destruct k as [| k]; [reflexivity |]). lia.
Qed.

Lemma hex_digit_is_hex n : 0 <= n < 16 -> is_hex_digit (MD5.hex_digit n) = true.
Proof.
  intros Hn. rewrite <- (Z2Nat.id n) by lia.
  apply hex_digit_is_hex_nat. lia.
Qed.

Lemma hex_digit_is_dot c : is_hex_digit c = true -> JS.is_dot c = true.
Proof.
  unfold is_hex_digit, JS.is_dot, JS.LF, JS.CR. intros Hc.
  destruct (Ascii.eqb_spec c (ascii_of_nat 10)) as [-> | _]; [discriminate Hc |].
  destruct (Ascii.eqb_spec c (ascii_of_nat 13)) as [-> | _]; [discriminate Hc |].
  reflexivity.
Qed.

Lemma hex_app l1 l2 : MD5.hex (l1 ++ l2) = MD5.hex l1 +:+ MD5.hex l2.
Proof. induction l1 as [| b l1 IH]; simpl; [reflexivity | rewrite IH; reflexivity]. Qed.

Lemma hex_is_hex_string l :
  Forall (fun b => 0 <= b < 256) l ->
  hex_string (2 * length l) (MD5.hex l).
Proof.
  induction 1 as [| b l Hb _ [IHlen IHhex]]; [split; reflexivity |].
  split; simpl.
  - rewrite IHlen. lia.
  - rewrite IHhex, !hex_digit_is_hex; [reflexivity | |].
    + apply Z.mod_pos_bound. lia.
    + split; [apply Z.div_pos; lia | apply Z.div_lt_upper_bound; lia].
Qed.

Lemma le_bytes_range n x : Forall (fun b => 0 <= b < 256) (MD5.le_bytes n x).
Proof.
  unfold MD5.le_bytes. apply Forall_fmap, Forall_true.
  intros i. simpl. apply Z.mod_pos_bound. lia.
Qed.

Lemma le_bytes_length n x : length (MD5.le_bytes n x) = n.
Proof. unfold MD5.le_bytes. rewrite length_map, length_seq. reflexivity. Qed.

(** The digest is sixteen bytes. *)
Lemma digest_bytes msg :
  length (MD5.digest msg) = 16%nat /\
  Forall (fun b => 0 <= b < 256) (MD5.digest msg).
Proof.
  unfold MD5.digest.
  destruct (MD5.blocks _ _ _) as [[[a b] c] d].
  split.
  - rewrite !length_app, !le_bytes_length. reflexivity.
  - repeat (apply Forall_app; split); apply le_bytes_range.
Qed.

Lemma hex_string_take_drop (l : list Z) (i n : nat) :
  Forall (fun b => 0 <= b < 256) l ->
  (i + n <= length l)%nat ->
  hex_string (2 * n) (MD5.hex (take n (drop i l))).
Proof.
  intros Hl Hlen.
  replace (2 * n)%nat with (2 * length (take n (drop i l)))%nat.
  - apply hex_is_hex_string.
    apply Forall_take, Forall_drop. exact Hl.
  - rewrite length_take, length_drop. lia.
Qed.

(** The five groups of the digest. *)
Lemma md5_hex_groups s :
  exists a b c d e : string,
    MD5.md5_hex s = a +:+ b +:+ c +:+ d +:+ e /\
    hex_string 8 a /\ hex_string 4 b /\ hex_string 4 c /\ hex_string 4 d /\
    hex_string 12 e.
Proof.
  unfold MD5.md5_hex.
  destruct (digest_bytes (MD5.bytes_of s)) as [Hlen Hrange].
  set (l := MD5.digest (MD5.bytes_of s)) in *.
  exists (MD5.hex (take 4 (drop 0 l))), (MD5.hex (take 2 (drop 4 l))),
         (MD5.hex (take 2 (drop 6 l))), (MD5.hex (take 2 (drop 8 l))),
         (MD5.hex (take 6 (drop 10 l))).
  split.
  - rewrite <- !hex_app. f_equal.
    rewrite drop_0.
    rewrite <- (take_drop 4 l) at 1. f_equal.
    rewrite <- (take_drop 2 (drop 4 l)) at 1. f_equal.
    rewrite drop_drop. simpl Nat.add.
    rewrite <- (take_drop 2 (drop 6 l)) at 1. f_equal.
    rewrite drop_drop. simpl Nat.add.
    rewrite <- (take_drop 2 (drop 8 l)) at 1. f_equal.
    rewrite drop_drop. simpl Nat.add.
    symmetry. apply take_ge. rewrite length_drop. lia.
  - repeat split.
    all: try (apply (hex_string_take_drop l 0 4 Hrange); lia).
    all: try (apply (hex_string_take_drop l 4 2 Hrange); lia).
    all: try (apply (hex_string_take_drop l 6 2 Hrange); lia).
    all: try (apply (hex_string_take_drop l 8 2 Hrange); lia).
    all: try (apply (hex_string_take_drop l 10 6 Hrange); lia).
Qed.

(** [n] dots consume [n] characters that are not line terminators. *)
Lemma match_here_dots n g r acc s1 s2 :
  String.length s1 = n ->
  string_forall JS.is_dot s1 = true ->
  Regex.match_here (Regex.dots n g ++ r) acc (s1 +:+ s2)
  = Regex.match_here r (acc ++ tag g s1) s2.
Proof.
  revert acc s1. induction n as [| n IH]; intros acc s1 Hlen Hdots.
  - destruct s1; [| discriminate]. simpl. rewrite app_nil_r. reflexivity.
  - destruct s1 as [| a s1]; [discriminate |].
    simpl in Hlen, Hdots. apply andb_prop in Hdots. destruct Hdots as [Ha Hdots].
    simpl. rewrite Ha. rewrite IH by (try lia; exact Hdots).
    rewrite <- app_assoc. reflexivity.
Qed.

Lemma group_tag_same g s m : Regex.group g (tag g s ++ m) = s +:+ Regex.group g m.
Proof.
  induction s as [| a s IH]; simpl; [reflexivity |].
  rewrite Nat.eqb_refl, IH. reflexivity.
Qed.

Lemma group_tag_other g h s m :
  g <> h -> Regex.group g (tag h s ++ m) = Regex.group g m.
Proof.
  intros Hne. induction s as [| a s IH]; simpl; [reflexivity |].
  destruct (Nat.eqb_spec h g) as [-> | _]; [congruence | exact IH].
Qed.

Lemma text_of_tag g s m : Regex.text_of (tag g s ++ m) = s +:+ Regex.text_of m.
Proof. induction s as [| a s IH]; simpl; [reflexivity | rewrite IH; reflexivity]. Qed.

Lemma hex_string_dots n s : hex_string n s -> string_forall JS.is_dot s = true.
Proof.
  intros [_ Hhex]. induction s as [| a s IH]; [reflexivity |].
  simpl in *. apply andb_prop in Hhex. destruct Hhex as [Ha Hs].
  rewrite (hex_digit_is_dot a Ha), (IH Hs). reflexivity.
Qed.

Lemma append_nil_r (s : string) : s +:+ "" = s.
Proof. induction s as [| a s IH]; simpl; [reflexivity | rewrite IH; reflexivity]. Qed.

Lemma exec_from_here r pre s m rest :
  Regex.match_here r [] s = Some (m, rest) ->
  Regex.exec_from r pre s = Some (pre, m, rest).
Proof. intros H. destruct s; simpl; rewrite H; reflexivity. Qed.

(** The pattern of [generateOfflineUUID] on five groups of characters. *)
Lemma re_uuid_match a b c d e :
  hex_string 8 a -> hex_string 4 b -> hex_string 4 c -> hex_string 4 d ->
  hex_string 12 e ->
  Regex.match_here re_uuid [] (a +:+ b +:+ c +:+ d +:+ e)
  = Some (tag 1 a ++ tag 2 b ++ tag 3 c ++ tag 4 d ++ tag 5 e ++ [], "").
Proof.
  intros Ha Hb Hc Hd He. unfold re_uuid.
  rewrite (match_here_dots 8 1 _ [] a) by (apply Ha || exact (hex_string_dots _ _ Ha)).
  rewrite (match_here_dots 4 2 _ _ b) by (apply Hb || exact (hex_string_dots _ _ Hb)).
  rewrite (match_here_dots 4 3 _ _ c) by (apply Hc || exact (hex_string_dots _ _ Hc)).
  rewrite (match_here_dots 4 4 _ _ d) by (apply Hd || exact (hex_string_dots _ _ Hd)).
  rewrite <- (append_nil_r e) at 1.
  rewrite <- (app_nil_r (Regex.dots 12 5)).
  rewrite (match_here_dots 12 5 [] _ e) by (apply He || exact (hex_string_dots _ _ He)).
  simpl Regex.match_here. rewrite app_nil_r, <- !app_assoc. reflexivity.
Qed.

(** C2. The offline UUID of a user name depends on the name alone: it is
    the MD5 digest of [OfflinePlayer:] followed by the name, written as 32
    hexadecimal digits and cut into groups of 8, 4, 4, 4 and 12 digits
    joined by hyphens. *)
Theorem generateOfflineUUID_canonical :
  forall username : string,
  exists a b c d e : string,
    MD5.md5_hex ("OfflinePlayer:" +:+ username) = a +:+ b +:+ c +:+ d +:+ e /\
    hex_string 8 a /\ hex_string 4 b /\ hex_string 4 c /\ hex_string 4 d /\
    hex_string 12 e /\
    generateOfflineUUID username
    = a +:+ "-" +:+ b +:+ "-" +:+ c +:+ "-" +:+ d +:+ "-" +:+ e.
Proof.
  intros username.
  destruct (md5_hex_groups ("OfflinePlayer:" +:+ username))
    as [a [b [c [d [e [Hhash [Ha [Hb [Hc [Hd He]]]]]]]]]].
  exists a, b, c, d, e. repeat (split; [assumption |]).
  unfold generateOfflineUUID, Regex.replace, Regex.exec.
  rewrite Hhash.
  rewrite (exec_from_here _ _ _ _ _ (re_uuid_match a b c d e Ha Hb Hc Hd He)).
  cbn [map seq].
  rewrite !text_of_tag.
  rewrite (group_tag_same 1), !(group_tag_other 1) by lia.
  rewrite (group_tag_other 2 1), (group_tag_same 2), !(group_tag_other 2) by lia.
  rewrite !(group_tag_other 3 1), !(group_tag_other 3 2), (group_tag_same 3),
    !(group_tag_other 3) by lia.
  rewrite !(group_tag_other 4 1), !(group_tag_other 4 2), !(group_tag_other 4 3),
    (group_tag_same 4), !(group_tag_other 4) by lia.
  rewrite !(group_tag_other 5 1), !(group_tag_other 5 2), !(group_tag_other 5 3),
    !(group_tag_other 5 4), (group_tag_same 5) by lia.
  cbn [Regex.group Regex.text_of]. rewrite !append_nil_r.
  change (Regex.substitution _ _ _ _ _)
    with (a +:+ "-" +:+ b +:+ "-" +:+ c +:+ "-" +:+ d +:+ "-" +:+ e +:+ "").
  rewrite append_nil_r. reflexivity.
Qed.

Example generateOfflineUUID_Steve :
  generateOfflineUUID "Steve" = "5627dd98-e6be-bc21-f8a8-e92344183641".
Proof. vm_compute. reflexivity. Qed.

(* ================================================================== *)
(** ** The version banner *)
(* ================================================================== *)

(** C3. The banner of an OpenJDK 8 contains the quoted version
    [1.8.0_301], [OpenJDK] and [jdk]; [parseJavaVersion] makes it a
    candidate of vendor OpenJDK and kind JDK whose version is 25: the
    build number of the virtual machine on the last line replaces the 8
    read on the first line. *)
Theorem parseJavaVersion_openjdk8_banner :
  JS.includes Sample.openjdk8_banner ("version " +:+ quoted "1.8.0_301") = true /\
  JS.includes Sample.openjdk8_banner "OpenJDK" = true /\
  JS.includes Sample.openjdk8_banner "jdk" = true /\
  parseJavaVersion Sample.openjdk8_banner "/usr/bin/java"
  = Some (mkJavaInfo "/usr/bin/java" (VNum 25) "OpenJDK" "64-bit" "JDK" true).
Proof. repeat split; vm_compute; reflexivity. Qed.

(** Line by line: the version after each line of that banner. *)
Example openjdk8_banner_lines :
  map b_version
    [fold_left scan_line (take 1 (JS.split JS.LF Sample.openjdk8_banner))
       (mkBanner "" "" "64-bit" "JRE");
     fold_left scan_line (take 2 (JS.split JS.LF Sample.openjdk8_banner))
       (mkBanner "" "" "64-bit" "JRE");
     fold_left scan_line (take 3 (JS.split JS.LF Sample.openjdk8_banner))
       (mkBanner "" "" "64-bit" "JRE")]
  = ["8"; "8"; "25"].
Proof. vm_compute. reflexivity. Qed.

(** On a banner of one line the rule of the source gives the minor of
    [1.<minor>] and otherwise the number before the first dot. *)
Example one_line_banners :
  option_map java_version
    (parseJavaVersion ("openjdk version " +:+ quoted "1.8.0_301") "java")
  = Some (VNum 8) /\
  option_map java_version
    (parseJavaVersion ("openjdk version " +:+ quoted "11.0.2" +:+ " 2019-01-15") "java")
  = Some (VNum 11) /\
  option_map java_version
    (parseJavaVersion ("java version " +:+ quoted "17") "java")
  = Some (VNum 17).
Proof. repeat split; vm_compute; reflexivity. Qed.

(* ================================================================== *)
(** ** The class path *)
(* ================================================================== *)

(** What [generateClasspath] returns for a manifest: the paths of the
    libraries that have an artifact, in the order of the manifest, and the
    client archive last, joined by the delimiter. *)
Lemma library_paths_omap env libs :
  library_paths env libs
  = omap (fun lib =>
            d ← downloads lib; a ← artifact d;
            Some (path_join env [gameDir env; "libraries"; art_path a])) libs.
Proof.
  induction libs as [| lib libs IH]; [reflexivity |].
  simpl. destruct (downloads lib) as [d |]; simpl; [| exact IH].
  destruct (artifact d) as [a |]; simpl; [| exact IH].
  rewrite IH. reflexivity.
Qed.

Lemma generateClasspath_entries env versionInfo :
  exists entries : list string,
    generateClasspath env versionInfo = JS.join (path_delimiter env) entries /\
    entries
    = omap (fun lib =>
              d ← downloads lib; a ← artifact d;
              Some (path_join env [gameDir env; "libraries"; art_path a]))
           (default [] (vi_libraries versionInfo)) ++
      [path_join env [gameDir env; "versions"; vi_id versionInfo;
                      vi_id versionInfo +:+ ".jar"]] /\
    last entries
    = Some (path_join env [gameDir env; "versions"; vi_id versionInfo;
                           vi_id versionInfo +:+ ".jar"]).
Proof.
  eexists. split; [reflexivity |]. split.
  - unfold clientJar. destruct (vi_libraries versionInfo) as [libs |]; simpl.
    + rewrite library_paths_omap. reflexivity.
    + reflexivity.
  - apply last_snoc.
Qed.

(** [spawnGameProcess] reads [this.currentVersionInfo] for its first
    argument already; while the field is unset it throws. *)
Lemma spawnGameProcess_unset env javaPath arg jvmArgs gameArgs st :
  currentVersionInfo (this st) = None ->
  spawnGameProcess env javaPath (arg :: jvmArgs) gameArgs st
  = (Throw (TypeError "Cannot read properties of undefined (reading 'id')"), st).
Proof.
  intros Hunset. unfold spawnGameProcess. simpl mapM.
  unfold mbind, M_bind, bind, get_this, generateNativesPath, deref.
  rewrite Hunset. reflexivity.
Qed.

Lemma same_session_refl st : same_session st st.
Proof. repeat split. Qed.

Lemma checkJavaVersion_frame env javaPath st :
  exists r st', checkJavaVersion env javaPath st = (Return r, st') /\
                same_session st st'.
Proof.
  unfold checkJavaVersion, mbind, M_bind, bind, get_this.
  destruct (javaCache (this st) !! javaPath) as [cached |].
  - eexists _, _. split; [reflexivity | apply same_session_refl].
  - unfold try_catch, execCommand.
    destruct (exec_output env _) as [versionOutput |]; unfold throw, ret.
    + destruct (parseJavaVersion versionOutput javaPath) as [versionInfo |].
      * eexists _, _. split; [reflexivity | repeat split].
      * eexists _, _. split; [reflexivity | apply same_session_refl].
    + eexists _, _. split; [reflexivity | apply same_session_refl].
Qed.

Lemma validateJava_frame env javaPath st :
  exists r st', validateJava env javaPath st = (r, st') /\ same_session st st'.
Proof.
  unfold validateJava.
  destruct (negb (JS.truthy_opt javaPath)).
  - unfold mbind, M_bind, bind, get_this.
    destruct (getRecommendedJavaVersion (this st));
      eexists _, _; (split; [reflexivity | apply same_session_refl]).
  - destruct (checkJavaVersion_frame env (default "" javaPath) st)
      as [r [st' [Hprobe Hsame]]].
    rewrite (bind_Return _ _ _ _ _ Hprobe).
    destruct r as [javaInfo |]; [| eexists _, _; split; [reflexivity | exact Hsame]].
    destruct (JS.number_lt _ 8); eexists _, _; (split; [reflexivity | exact Hsame]).
Qed.

(** The [try] block of [launchGame] throws before it spawns while
    [currentVersionInfo] is unset, and when the request has no account or no
    version. *)
Lemma launchGame_try_throws_when env launchConfig st :
  currentVersionInfo (this st) = None \/
  lc_account launchConfig = None \/ lc_version launchConfig = None ->
  exists (e : Exn) (st1 : State),
    launchGame_try env launchConfig st = (Throw e, st1) /\ same_session st st1.
Proof.
  intros Hwhy. unfold launchGame_try. cbv zeta.
  destruct (validateJava_frame env
              (if JS.truthy_opt (lc_javaPath launchConfig)
               then lc_javaPath launchConfig else cfg_javaPath (getConfig env)) st)
    as [r [st1 [Hjava Hsame]]].
  destruct r as [javaInfo | e];
    [| exists e, st1; split; [exact (bind_Throw _ _ _ _ _ Hjava) | exact Hsame]].
  rewrite (bind_Return _ _ _ _ _ Hjava).
  destruct (lc_version launchConfig) as [version_id |];
    [| eexists _, st1; split; [apply bind_Throw; reflexivity | exact Hsame]].
  rewrite (bind_Return _ _ st1 version_id st1) by reflexivity.
  unfold validateVersion.
  destruct (read_manifest env _) as [versionInfo |];
    [| eexists _, st1; split; [apply bind_Throw; reflexivity | exact Hsame]].
  rewrite (bind_Return _ _ st1 versionInfo st1) by reflexivity.
  unfold validateAccount.
  destruct (lc_account launchConfig) as [account |];
    [| eexists _, st1; split; [apply bind_Throw; reflexivity | exact Hsame]].
  destruct (negb (JS.truthy (username account)));
    [eexists _, st1; split; [apply bind_Throw; reflexivity | exact Hsame] |].
  destruct (String.eqb (acc_type account) "microsoft" &&
            negb (JS.truthy_opt (accessToken account)));
    [eexists _, st1; split; [apply bind_Throw; reflexivity | exact Hsame] |].
  rewrite (bind_Return _ _ st1 tt st1) by reflexivity.
  rewrite (bind_Return _ _ st1 account st1) by reflexivity.
  destruct Hwhy as [Hunset | [Hno | Hno]]; [| discriminate Hno | discriminate Hno].
  unfold prepareLaunchArguments. cbv zeta. cbn [app].
  eexists _, st1. split; [| exact Hsame].
  apply bind_Throw. apply spawnGameProcess_unset.
  destruct Hsame as [_ [_ [_ [Hcvi _]]]]. congruence.
Qed.

Lemma launchGame_try_throws env launchConfig st :
  currentVersionInfo (this st) = None ->
  exists (e : Exn) (st1 : State),
    launchGame_try env launchConfig st = (Throw e, st1) /\ same_session st st1.
Proof.
  intros Hunset. apply launchGame_try_throws_when. left. exact Hunset.
Qed.


(** C5. A launch of an installed version from a new launcher: the manifest
    is read, and the class path is not resolved from it; the placeholder is
    resolved from [this.currentVersionInfo], which is unset, so the launch
    throws a [TypeError], spawns no process and reports the failure. *)
Theorem launchGame_classpath_unresolved :
  validateVersion (Sample.linux Sample.openjdk8_banner) "1.20.1" Sample.fresh
  = (Return Sample.manifest, Sample.fresh) /\
  fst (launchGame (Sample.linux Sample.openjdk8_banner) Sample.request Sample.fresh)
  = Throw (TypeError "Cannot read properties of undefined (reading 'id')") /\
  trace (snd (launchGame (Sample.linux Sample.openjdk8_banner) Sample.request
                Sample.fresh))
  = [Emit (game_launch_failed
             "Cannot read properties of undefined (reading 'id')" "Steve" "1.20.1")] /\
  generateClasspath (Sample.linux Sample.openjdk8_banner) Sample.manifest
  = "/home/u/.minecraft/libraries/com/a/a-1.0.jar:/home/u/.minecraft/libraries/org/b/b-2.0.jar:/home/u/.minecraft/versions/1.20.1/1.20.1.jar".
Proof. repeat split; vm_compute; reflexivity. Qed.

(* ================================================================== *)
(** ** The scan: ranking, deduplication, cache *)
(* ================================================================== *)

Lemma sort_insert_perm {A} (cmp : A -> A -> Z) x l :
  sort_insert cmp x l ≡ₚ x :: l.
Proof.
  induction l as [| y l IH]; simpl; [reflexivity |].
  destruct (cmp x y <=? 0); [reflexivity |].
  rewrite IH. apply Permutation_swap.
Qed.

Lemma sort_perm {A} (cmp : A -> A -> Z) l : sort cmp l ≡ₚ l.
Proof.
  induction l as [| x l IH]; simpl; [reflexivity |].
  rewrite sort_insert_perm, IH. reflexivity.
Qed.

Lemma sort_insert_ranked x l :
  StronglySorted (fun a b => rank b <= rank a) l ->
  StronglySorted (fun a b => rank b <= rank a)
    (sort_insert (fun a b => compareJavaVersions (java_version a) (java_version b))
       x l).
Proof.
  induction 1 as [| y l Hl IH Hy]; simpl.
  - constructor; constructor.
  - unfold compareJavaVersions at 1. fold (rank x) (rank y).
    destruct (Z.leb_spec (rank y - rank x) 0) as [Hle | Hgt].
    + constructor; [constructor; assumption |].
      constructor; [lia |].
      eapply Forall_impl; [exact Hy |]. simpl. intros z Hz. lia.
    + constructor; [exact IH |].
      rewrite sort_insert_perm. constructor; [lia | exact Hy].
Qed.

Lemma sort_ranked l :
  StronglySorted (fun a b => rank b <= rank a)
    (sort (fun a b => compareJavaVersions (java_version a) (java_version b)) l).
Proof.
  induction l as [| x l IH]; simpl; [constructor |].
  apply sort_insert_ranked. exact IH.
Qed.

Lemma map_has_elem {V} (m : list (string * V)) key :
  map_has m key = true <-> key ∈ map fst m.
Proof.
  induction m as [| [k v] m IH]; simpl.
  - split; [discriminate | intros H; inversion H].
  - rewrite orb_true_iff, IH, elem_of_cons.
    split; (intros [H | H]; [left | right; exact H]).
    + symmetry. apply String.eqb_eq. exact H.
    + apply String.eqb_eq. symmetry. exact H.
Qed.

Lemma add_unique_keyed results : forall acc,
  keyed acc -> keyed (fold_left add_unique results acc).
Proof.
  induction results as [| r results IH]; intros acc Hacc; simpl; [exact Hacc |].
  apply IH. unfold add_unique. destruct r as [javaInfo |]; [| exact Hacc].
  fold (candidate_key javaInfo).
  destruct (map_has acc (candidate_key javaInfo)) eqn:Hhas; [exact Hacc |].
  destruct Hacc as [Hnodup Hkeys]. split.
  - rewrite map_app. simpl. apply NoDup_app. split; [exact Hnodup |].
    split; [| apply NoDup_singleton].
    intros k Hk Hin. apply list_elem_of_singleton in Hin. subst k.
    apply map_has_elem in Hk. congruence.
  - apply Forall_app. split; [exact Hkeys |]. constructor; [reflexivity | constructor].
Qed.

Lemma keyed_values m : keyed m -> NoDup (map candidate_key (map snd m)).
Proof.
  intros [Hnodup Hkeys].
  replace (map candidate_key (map snd m)) with (map fst m); [exact Hnodup |].
  induction Hkeys as [| kv m Hkv _ IH]; simpl; [reflexivity |].
  rewrite Hkv. f_equal. apply IH. inversion Hnodup; assumption.
Qed.

Lemma same_session_trans st1 st2 st3 :
  same_session st1 st2 -> same_session st2 st3 -> same_session st1 st3.
Proof.
  intros [A1 [A2 [A3 [A4 A5]]]] [B1 [B2 [B3 [B4 B5]]]].
  repeat split; congruence.
Qed.





Lemma mapM_checkJavaVersion_frame env paths : forall st,
  exists rs st',
    mapM (checkJavaVersion env) paths st = (Return rs, st') /\ same_session st st'.
Proof.
  induction paths as [| p paths IH]; intros st.
  - exists [], st. split; [reflexivity | apply same_session_refl].
  - destruct (checkJavaVersion_frame env p st) as [r [st1 [Hr Hs1]]].
    destruct (IH st1) as [rs [st2 [Hrs Hs2]]].
    exists (r :: rs), st2. split; [| exact (same_session_trans _ _ _ Hs1 Hs2)].
    simpl. rewrite (bind_Return _ _ _ _ _ Hr), (bind_Return _ _ _ _ _ Hrs).
    reflexivity.
Qed.

Lemma findJavaInPath_loop_frame env commands st :
  exists r st',
    findJavaInPath_loop env commands st = (Return r, st') /\ same_session st st'.
Proof.
  induction commands as [| cmd rest IH]; simpl.
  - exists None, st. split; [reflexivity | apply same_session_refl].
  - destruct (exec_output env cmd) as [javaPath |]; [| exact IH].
    destruct (JS.truthy javaPath && JS.truthy (JS.trim javaPath)); [| exact IH].
    apply checkJavaVersion_frame.
Qed.

(** A scan from any state: it returns, and what it returns is ranked and
    free of duplicate keys. *)
Lemma detectJavaVersions_shape env st :
  exists found st',
    detectJavaVersions env st = (Return found, st') /\
    NoDup (map candidate_key found) /\
    StronglySorted (fun a b => rank b <= rank a) found /\
    javaVersions (this st') = found /\
    same_session (mkState (this st)
                    (trace st ++ [Emit (java_versions_detected found)]))
                 st'.
Proof.
  unfold detectJavaVersions.
  set (st0 := mkState (set_javaVersions [] (this st)) (trace st)).
  destruct (mapM_checkJavaVersion_frame env (getCommonJavaPaths env) st0)
    as [probes [st1 [Hprobes Hs1]]].
  destruct (findJavaInPath_loop_frame env
              (if String.eqb (platform env) "win32"
               then ["java.exe"; "where java"]
               else ["which java"; "command -v java"]) st1)
    as [inPath [st2 [Hin Hs2]]].
  set (unique := fold_left add_unique (probes ++ [inPath]) []).
  assert (Hkeyed : keyed unique).
  { apply add_unique_keyed. split; constructor. }
  eexists _, _. split; [| split; [| split; [| split]]].
  - rewrite (bind_Return _ _ st tt st0) by reflexivity.
    rewrite (bind_Return _ _ _ _ _ Hprobes).
    unfold findJavaInPath. rewrite (bind_Return _ _ _ _ _ Hin).
    reflexivity.
  - assert (Hperm :
      map candidate_key
        (sort (fun a b => compareJavaVersions (java_version a) (java_version b))
           (map snd unique))
      ≡ₚ map candidate_key (map snd unique))
      by apply Permutation_map, sort_perm.
    fold unique. rewrite Hperm. apply keyed_values. exact Hkeyed.
  - apply sort_ranked.
  - reflexivity.
  - destruct (same_session_trans _ _ _ Hs1 Hs2) as [A1 [A2 [A3 [A4 A5]]]].
    subst st0. simpl in A1, A2, A3, A4, A5.
    repeat split; simpl; try assumption. rewrite A5. reflexivity.
Qed.







(** X5. A probe that found a runtime has cached it: the next probe of the
    path answers the same whatever the command runner would say now, and
    changes nothing.  A probe that found none has cached nothing. *)
Theorem checkJavaVersion_caches :
  forall (env : Env) (javaPath : string) (st st' : State)
         (r : result (option JavaInfo)),
    checkJavaVersion env javaPath st = (r, st') ->
    match r with
    | Return (Some j) =>
        forall env' : Env,
          checkJavaVersion env' javaPath st' = (Return (Some j), st')
    | Return None => st' = st
    | Throw _ => False
    end.
Proof.
  intros env javaPath st st' r.
  unfold checkJavaVersion, mbind, M_bind, bind, get_this.
  destruct (javaCache (this st) !! javaPath) as [cached |] eqn:Hlook.
  - intros [= <- <-]. intros env'. rewrite Hlook. reflexivity.
  - unfold try_catch, execCommand.
    destruct (exec_output env _) as [versionOutput |]; unfold throw, ret.
    + destruct (parseJavaVersion versionOutput javaPath) as [versionInfo |].
      * intros [= <- <-]. intros env'. simpl.
        rewrite lookup_insert_eq. reflexivity.
      * intros [= <- <-]. reflexivity.
    + intros [= <- <-]. reflexivity.
Qed.

Lemma checkJavaVersion_caches_witness :
  checkJavaVersion (Sample.linux Sample.unnumbered_banner) "/usr/bin/java"
    (snd (checkJavaVersion (Sample.linux Sample.java7_banner) "/usr/bin/java"
            Sample.fresh))
  = (Return (Some (mkJavaInfo "/usr/bin/java" (VNum 7) "" "64-bit" "JRE" true)),
     snd (checkJavaVersion (Sample.linux Sample.java7_banner) "/usr/bin/java"
            Sample.fresh)).
Proof.
  exact (checkJavaVersion_caches (Sample.linux Sample.java7_banner)
           "/usr/bin/java" Sample.fresh _ _ eq_refl
           (Sample.linux Sample.unnumbered_banner)).
Defined.

(* ================================================================== *)
(** ** The choice and the validation of a runtime *)
(* ================================================================== *)

Lemma find_has_version n l j :
  find (has_version n) l = Some j -> j ∈ l /\ java_version j = VNum n.
Proof.
  intros Hfind. apply find_some in Hfind. destruct Hfind as [Hin Hhas].
  split; [apply list_elem_of_In; exact Hin |].
  unfold has_version in Hhas. destruct (java_version j) as [m | s]; [| discriminate].
  apply Z.eqb_eq in Hhas. congruence.
Qed.

Lemma find_has_version_none n l :
  find (has_version n) l = None ->
  forall k, k ∈ l -> java_version k <> VNum n.
Proof.
  intros Hfind k Hk Hversion.
  apply list_elem_of_In in Hk.
  pose proof (find_none _ _ Hfind k Hk) as Hhas.
  unfold has_version in Hhas. rewrite Hversion, Z.eqb_refl in Hhas. discriminate.
Qed.

(** X6. [getRecommendedJavaVersion] answers [null] only when no runtime
    was found; otherwise it answers one of the found runtimes: a Java 8 if
    there is one, else a Java 11 if there is one, else the first of the
    list. *)
Theorem getRecommendedJavaVersion_prefers :
  forall l : Launcher,
    (getRecommendedJavaVersion l = None <-> javaVersions l = []) /\
    (forall j,
        getRecommendedJavaVersion l = Some j ->
        j ∈ javaVersions l /\
        ((exists k, k ∈ javaVersions l /\ java_version k = VNum 8) ->
         java_version j = VNum 8) /\
        ((forall k, k ∈ javaVersions l -> java_version k <> VNum 8) ->
         (exists k, k ∈ javaVersions l /\ java_version k = VNum 11) ->
         java_version j = VNum 11) /\
        ((forall k, k ∈ javaVersions l ->
                    java_version k <> VNum 8 /\ java_version k <> VNum 11) ->
         head (javaVersions l) = Some j)).
Proof.
  intros l. unfold getRecommendedJavaVersion.
  destruct (find (has_version 8) (javaVersions l)) as [java8 |] eqn:H8.
  - destruct (find_has_version _ _ _ H8) as [Hin Hv]. split.
    + split; [discriminate |]. intros Hnil. rewrite Hnil in Hin. inversion Hin.
    + intros j [= <-]. repeat split; try assumption.
      * intros _. exact Hv.
      * intros Hno _. exfalso. exact (Hno _ Hin Hv).
      * intros Hno. exfalso. exact (proj1 (Hno _ Hin) Hv).
  - pose proof (find_has_version_none _ _ H8) as Hno8.
    destruct (find (has_version 11) (javaVersions l)) as [java11 |] eqn:H11.
    + destruct (find_has_version _ _ _ H11) as [Hin Hv]. split.
      * split; [discriminate |]. intros Hnil. rewrite Hnil in Hin. inversion Hin.
      * intros j [= <-]. repeat split; try assumption.
        -- intros [k [Hk Hk8]]. exfalso. exact (Hno8 _ Hk Hk8).
        -- intros _ _. exact Hv.
        -- intros Hno. exfalso. exact (proj2 (Hno _ Hin) Hv).
    + pose proof (find_has_version_none _ _ H11) as Hno11. split.
      * destruct (javaVersions l); simpl; split; intros; congruence.
      * intros j Hhead. repeat split.
        -- destruct (javaVersions l) as [| x xs]; [discriminate |].
           simpl in Hhead. injection Hhead as <-. apply list_elem_of_here.
        -- intros [k [Hk Hk8]]. exfalso. exact (Hno8 _ Hk Hk8).
        -- intros _ [k [Hk Hk11]]. exfalso. exact (Hno11 _ Hk Hk11).
        -- intros _. exact Hhead.
Qed.

(** X7. Without a configured path [validateJava] takes the recommended
    runtime as it is: it runs no probe, changes nothing and does not look
    at the version; it throws only when no runtime was found. *)
Theorem validateJava_autodetect :
  forall (env : Env) (javaPath : option string) (st : State),
    JS.truthy_opt javaPath = false ->
    match javaVersions (this st) with
    | [] => validateJava env javaPath st
            = (Throw (Error "未找到 Java 运行时环境"), st)
    | _ :: _ =>
        exists j, j ∈ javaVersions (this st) /\
                  validateJava env javaPath st = (Return j, st)
    end.
Proof.
  intros env javaPath st Hpath. unfold validateJava. rewrite Hpath. cbn [negb].
  cbv iota. unfold mbind, M_bind, bind, get_this. cbv beta iota.
  destruct (getRecommendedJavaVersion_prefers (this st)) as [Hnone Hsome].
  destruct (getRecommendedJavaVersion (this st)) as [j |] eqn:Hrec.
  - destruct (Hsome j eq_refl) as [Hin _].
    destruct (javaVersions (this st)) as [| x xs]; [inversion Hin |].
    exists j. split; [exact Hin | reflexivity].
  - rewrite (proj1 Hnone eq_refl). reflexivity.
Qed.

(** A launcher that found a Java 7 only uses it. *)
Lemma validateJava_autodetect_witness :
  exists j, j ∈ javaVersions (this Sample2.only_java7) /\
            validateJava (Sample.linux Sample.openjdk8_banner) None
              Sample2.only_java7
            = (Return j, Sample2.only_java7).
Proof.
  exact (validateJava_autodetect (Sample.linux Sample.openjdk8_banner) None
           Sample2.only_java7 eq_refl).
Defined.

(** X8. For a runtime configured by its path and probed with a number
    as its version, an integer between [-2^53] and [2^53] (where
    [String(n)] prints every digit), [validateJava] accepts it exactly when
    [checkJavaCompatibility] calls that version compatible. *)
Theorem validateJava_agrees_with_checkJavaCompatibility :
  forall (env : Env) (javaPath : string) (st st' : State)
         (javaInfo : JavaInfo) (n : Z),
    JS.truthy javaPath = true ->
    checkJavaVersion env javaPath st = (Return (Some javaInfo), st') ->
    java_version javaInfo = VNum n ->
    - 2 ^ 53 < n < 2 ^ 53 ->
    (validateJava env (Some javaPath) st = (Return javaInfo, st') <->
     compatible (checkJavaCompatibility (java_version javaInfo)) = true).
Proof.
  intros env javaPath st st' javaInfo n Hpath Hprobe Hversion _.
  unfold validateJava, JS.truthy_opt. rewrite Hpath. cbn [negb]. cbv iota.
  unfold mbind, M_bind, bind. simpl default. rewrite Hprobe.
  unfold checkJavaCompatibility.
  rewrite Hversion, parseInt_or_0_number.
  cbn [version_to_number version_to_string]. rewrite number_lt_integer.
  destruct (n <? 8).
  - split; [discriminate | simpl; discriminate].
  - split; [| reflexivity]. intros _. destruct (n >? 21); reflexivity.
Qed.

(** The OpenJDK 8 of the sample, read as version 25, is accepted by
    both. *)
Lemma validateJava_agrees_with_checkJavaCompatibility_witness :
  validateJava (Sample.linux Sample.openjdk8_banner) (Some "/usr/bin/java")
    Sample.fresh
  = (Return (mkJavaInfo "/usr/bin/java" (VNum 25) "OpenJDK" "64-bit" "JDK" true),
     snd (checkJavaVersion (Sample.linux Sample.openjdk8_banner) "/usr/bin/java"
            Sample.fresh)) <->
  compatible (checkJavaCompatibility (VNum 25)) = true.
Proof.
  apply (validateJava_agrees_with_checkJavaCompatibility
           (Sample.linux Sample.openjdk8_banner) "/usr/bin/java" Sample.fresh _
           (mkJavaInfo "/usr/bin/java" (VNum 25) "OpenJDK" "64-bit" "JDK" true)
           25 eq_refl eq_refl eq_refl).
  lia.
Defined.

(* ================================================================== *)
(** ** The session: stopping, output, exit *)
(* ================================================================== *)

(** [stopGame] on a session that is not marked running. *)
Lemma stopGame_stopped env st :
  isRunning (this st) = false -> stopGame env st = (Return false, st).
Proof.
  intros Hstopped. unfold stopGame, mbind, M_bind, bind, get_this.
  rewrite Hstopped. destruct (gameProcess (this st)); reflexivity.
Qed.

(** X9. Off Windows, stopping a running session sends [SIGTERM] to its
    process, clears [isRunning], emits [game-stopped] and returns [true];
    the handle stays in [gameProcess].  A second [stopGame] then returns
    [false] and does nothing. *)
Theorem stopGame_sigterm_once :
  forall (env : Env) (st : State) (p : ChildProcess),
    gameProcess (this st) = Some p ->
    isRunning (this st) = true ->
    String.eqb (platform env) "win32" = false ->
    let st1 :=
      mkState (set_isRunning false (this st))
        (trace st ++ [Kill p "SIGTERM"; Emit (game_stopped (pid p))]) in
    stopGame env st = (Return true, st1) /\
    gameProcess (this st1) = Some p /\
    stopGame env st1 = (Return false, st1).
Proof.
  intros env st p Hp Hrun Hplatform st1. split; [| split].
  - unfold stopGame, mbind, M_bind, bind, get_this.
    rewrite Hp, Hrun. cbn [negb]. cbv iota.
    unfold try_catch. rewrite Hplatform. cbv beta iota.
    unfold effect, modify, emit, effect, ret. cbn [this trace].
    subst st1. rewrite <- app_assoc. reflexivity.
  - exact Hp.
  - apply stopGame_stopped. reflexivity.
Qed.

Lemma stopGame_sigterm_once_witness :
  stopGame (Sample.linux Sample.openjdk8_banner) Sample.running
  = (Return true,
     mkState (set_isRunning false (this Sample.running))
       [Kill (mkProcess (Some 4242)) "SIGTERM"; Emit (game_stopped (Some 4242))]).
Proof.
  exact (proj1 (stopGame_sigterm_once (Sample.linux Sample.openjdk8_banner)
                  Sample.running (mkProcess (Some 4242))
                  eq_refl eq_refl eq_refl)).
Defined.

(** X10. On Windows, stopping a running session whose process has the
    pid [n] runs [taskkill /pid n /f /t] (when that can be spawned), clears
    [isRunning], emits [game-stopped] and returns [true]; no signal is sent
    to the process itself. *)
Theorem stopGame_win32_taskkill :
  forall (env : Env) (st : State) (p killer : ChildProcess) (n : Z),
    gameProcess (this st) = Some p ->
    isRunning (this st) = true ->
    pid p = Some n ->
    String.eqb (platform env) "win32" = true ->
    spawn_process env "taskkill" ["/pid"; JS.number_to_string n; "/f"; "/t"]
    = Some killer ->
    stopGame env st
    = (Return true,
       mkState (set_isRunning false (this st))
         (trace st ++
          [Spawn "taskkill" ["/pid"; JS.number_to_string n; "/f"; "/t"] None []
             false;
           Emit (game_stopped (Some n))])).
Proof.
  intros env st p killer n Hp Hrun Hpid Hplatform Hspawn.
  unfold stopGame, mbind, M_bind, bind, get_this.
  rewrite Hp, Hrun. cbn [negb]. cbv iota.
  unfold try_catch. rewrite Hplatform, Hpid. cbv beta iota.
  unfold spawn. rewrite Hspawn.
  unfold mbind, M_bind, bind, effect, modify, emit, effect, ret. cbn [this trace].
  rewrite <- app_assoc. reflexivity.
Qed.

Lemma stopGame_win32_taskkill_witness :
  stopGame Sample2.windows Sample.running
  = (Return true,
     mkState (set_isRunning false (this Sample.running))
       [Spawn "taskkill" ["/pid"; "4242"; "/f"; "/t"] None [] false;
        Emit (game_stopped (Some 4242))]).
Proof.
  exact (stopGame_win32_taskkill Sample2.windows Sample.running
           (mkProcess (Some 4242)) (mkProcess (Some 77)) 4242
           eq_refl eq_refl eq_refl eq_refl eq_refl).
Defined.

(** X11. On Windows, a session whose process handle has no pid cannot be
    stopped: [stopGame] returns [false], spawns nothing, emits nothing and
    leaves [isRunning] set. *)
Theorem stopGame_win32_without_pid :
  forall (env : Env) (st : State) (p : ChildProcess),
    gameProcess (this st) = Some p ->
    isRunning (this st) = true ->
    pid p = None ->
    String.eqb (platform env) "win32" = true ->
    stopGame env st = (Return false, st) /\ isRunning (this st) = true.
Proof.
  intros env st p Hp Hrun Hpid Hplatform. split; [| exact Hrun].
  unfold stopGame, mbind, M_bind, bind, get_this.
  rewrite Hp, Hrun. cbn [negb]. cbv iota.
  unfold try_catch. rewrite Hplatform, Hpid. reflexivity.
Qed.

Lemma stopGame_win32_without_pid_witness :
  stopGame Sample2.windows Sample2.orphan = (Return false, Sample2.orphan) /\
  isRunning (this Sample2.orphan) = true.
Proof.
  exact (stopGame_win32_without_pid Sample2.windows Sample2.orphan
           (mkProcess None) eq_refl eq_refl eq_refl eq_refl).
Defined.

Lemma deliver_appends r st :
  this (snd (HCLJavaLauncher.deliver r st))
  = set_gameOutput (gameOutput (this st) ++ [r]) (this st).
Proof.
  destruct r as [[|] data now]; unfold HCLJavaLauncher.deliver;
    cbn [out_type out_data out_timestamp].
  - reflexivity.
  - unfold on_stderr_data, checkForErrors, push_output, emit, effect, modify.
    unfold mbind, M_bind, bind. cbv beta iota. cbn [this trace].
    match goal with
    | |- context [scan_rules errorPatterns data ?st0] =>
        destruct (scan_rules_first_match errorPatterns data st0) as [diag [Hrun _]]
    end.
    rewrite Hrun. reflexivity.
Qed.

(** X12. The buffer keeps every chunk: after any sequence of chunks of
    the two streams, [gameOutput] is what it was followed by one record for
    each chunk, in the order of arrival; no record is dropped, however many
    there are, and the other fields of the session stay as they were. *)
Theorem gameOutput_keeps_every_record :
  forall (rs : list OutputRecord) (st : State),
    let st' := HCLJavaLauncher.deliver_all rs st in
    gameOutput (this st') = gameOutput (this st) ++ rs /\
    gameProcess (this st') = gameProcess (this st) /\
    isRunning (this st') = isRunning (this st) /\
    HCLJavaLauncher.getGameStatus (this st')
    = match gameProcess (this st) with
      | None => HCLJavaLauncher.no_process
      | Some p =>
          HCLJavaLauncher.process_status (isRunning (this st)) (pid p) None
            (length (gameOutput (this st)) + length rs)
      end.
Proof.
  intros rs. unfold HCLJavaLauncher.deliver_all.
  induction rs as [| r rs IH]; intros st; simpl.
  - rewrite app_nil_r, Nat.add_0_r. repeat split.
  - destruct (IH (snd (HCLJavaLauncher.deliver r st))) as [Ho [Hp [Hr Hs]]].
    rewrite deliver_appends in Ho, Hp, Hr, Hs. simpl in Ho, Hp, Hr, Hs.
    split; [| split; [| split]]; try assumption.
    + rewrite Ho, <- app_assoc. reflexivity.
    + rewrite Hs. destruct (gameProcess (this st)); [| reflexivity].
      rewrite length_app. simpl. f_equal. lia.
Qed.

(** X13. The exit of the process ends the session: [isRunning] is
    cleared and the handle dropped, so the status is [{isRunning: false}]
    and [stopGame] returns [false]; the [game-exit] event carries the whole
    buffer and its type is [normal] for code 0 only; the buffer itself is
    kept. *)
Theorem on_close_ends_session :
  forall (env : Env) (exit_code : option Z) (st : State),
    let st' := snd (on_close exit_code st) in
    HCLJavaLauncher.getGameStatus (this st') = HCLJavaLauncher.no_process /\
    isRunning (this st') = false /\
    stopGame env st' = (Return false, st') /\
    gameOutput (this st') = gameOutput (this st) /\
    trace st'
    = trace st ++
      [Emit (game_exit exit_code
               (if decide (exit_code = Some 0) then "normal" else "error")
               (gameOutput (this st)))].
Proof.
  intros env exit_code st st'. subst st'.
  unfold on_close, mbind, M_bind, bind, modify, get_this, emit, effect.
  cbn [snd this trace]. repeat split.
  - f_equal. f_equal. destruct exit_code as [[| c | c] |]; reflexivity.
Qed.

(** X14. A negative limit [-k] makes [getGameOutput] skip the first [k]
    records of the buffer and return all the later ones. *)
Theorem getGameOutput_negative_limit :
  forall (l : Launcher) (k : Z),
    0 < k ->
    getGameOutput (Some (- k)) l = drop (Z.to_nat k) (gameOutput l).
Proof.
  intros l k Hk. unfold getGameOutput, slice_from. simpl default.
  rewrite Z.opp_involutive.
  destruct (Z.ltb_spec k 0) as [Hneg | _]; [lia |].
  destruct (Z.le_gt_cases k (Z.of_nat (length (gameOutput l)))) as [Hle | Hgt].
  - rewrite Z.min_l by lia. reflexivity.
  - rewrite Z.min_r by lia. rewrite Nat2Z.id.
    rewrite drop_all. symmetry. apply drop_ge. lia.
Qed.

Lemma getGameOutput_negative_limit_witness :
  getGameOutput (Some (- 1)) (this Sample.running)
  = drop (Z.to_nat 1) (gameOutput (this Sample.running)).
Proof.
  apply (getGameOutput_negative_limit (this Sample.running) 1). lia.
Defined.

(* ================================================================== *)
(** ** Launching: arguments and failures *)
(* ================================================================== *)

(** X15. The game arguments end with the marker [--demo] exactly for an
    account of type [offline]; for every other account they end with the
    version type [release]. *)
Theorem prepareLaunchArguments_demo_marker :
  forall (env : Env) (account : Account) (versionInfo : Manifest)
         (memory : Z) (javaInfo : JavaInfo),
    let gameArguments :=
      snd (prepareLaunchArguments env account versionInfo memory javaInfo) in
    (last gameArguments = Some "--demo" <-> acc_type account = "offline") /\
    (acc_type account <> "offline" -> last gameArguments = Some "release").
Proof.
  intros env account versionInfo memory javaInfo. cbv zeta.
  unfold prepareLaunchArguments. cbn [snd].
  destruct (String.eqb_spec (acc_type account) "offline") as [Hoff | Hother].
  - split; [split; [intros _; exact Hoff | intros _; reflexivity] |].
    intros Hne. contradiction.
  - split; [split; [discriminate | intros Hoff; contradiction] |].
    intros _. reflexivity.
Qed.

(** X16. A failed launch of a request that has an account and a version
    reports the first check that fails: the error of the Java check when
    that one fails, and the missing version when Java is accepted and the
    manifest cannot be read, before the account is looked at.  The error
    thrown is the one announced by [game-launch-failed]. *)
Theorem launchGame_reports_first_failure :
  forall (env : Env) (launchConfig : LaunchConfig) (st st1 : State)
         (r : result JavaInfo) (account : Account) (version_id : string),
    isRunning (this st) = false ->
    lc_account launchConfig = Some account ->
    lc_version launchConfig = Some version_id ->
    validateJava env
      (if JS.truthy_opt (lc_javaPath launchConfig)
       then lc_javaPath launchConfig else cfg_javaPath (getConfig env)) st
    = (r, st1) ->
    let failed (e : Exn) :=
      (Throw e,
       mkState (this st1)
         (trace st1 ++
          [Emit (game_launch_failed (exn_message e) (username account)
                   version_id)])) in
    match r with
    | Throw e => launchGame env launchConfig st = failed e
    | Return javaInfo =>
        read_manifest env
          (path_join env
             [path_join env [gameDir env; "versions"; version_id];
              version_id +:+ ".json"]) = None ->
        launchGame env launchConfig st
        = failed (Error ("游戏版本未安装: " +:+ version_id))
    end.
Proof.
  intros env launchConfig st st1 r account version_id
    Hidle Haccount Hversion Hjava failed. subst failed.
  unfold launchGame.
  rewrite (bind_Return _ _ st (this st) st) by reflexivity.
  rewrite Hidle. unfold try_catch, launchGame_try, launchGame_catch. cbv zeta.
  rewrite Haccount, Hversion.
  destruct r as [javaInfo | e].
  - intros Hmissing. rewrite (bind_Return _ _ _ _ _ Hjava).
    rewrite (bind_Return _ _ st1 version_id st1) by reflexivity.
    unfold validateVersion. rewrite Hmissing.
    rewrite (bind_Throw _ _ st1 _ st1) by reflexivity. reflexivity.
  - rewrite (bind_Throw _ _ _ _ _ Hjava). reflexivity.
Qed.

Lemma launchGame_reports_first_failure_witness :
  launchGame (Sample.linux Sample.java7_banner) Sample.request Sample.fresh
  = (Throw (Error "Java 版本过低 (7)，需要 Java 8 或更高版本"),
     mkState
       (this (snd (validateJava (Sample.linux Sample.java7_banner)
                     (Some "/usr/bin/java") Sample.fresh)))
       [Emit (game_launch_failed "Java 版本过低 (7)，需要 Java 8 或更高版本"
                "Steve" "1.20.1")]).
Proof.
  exact (launchGame_reports_first_failure (Sample.linux Sample.java7_banner)
           Sample.request Sample.fresh _ _ Sample.steve "1.20.1"
           eq_refl eq_refl eq_refl eq_refl).
Defined.



(** While [currentVersionInfo] is unset a launch leaves the buffer alone
    too, and adds at most the event of the failure to the trace. *)
Lemma launchGame_keeps_session env launchConfig st :
  isRunning (this st) = false ->
  currentVersionInfo (this st) = None ->
  let st' := snd (launchGame env launchConfig st) in
  gameProcess (this st') = gameProcess (this st) /\
  isRunning (this st') = false /\
  gameOutput (this st') = gameOutput (this st) /\
  currentVersionInfo (this st') = None /\
  exists events,
    trace st' = trace st ++ events /\
    Forall (fun e => is_process_effect e = false) events.
Proof.
  intros Hidle Hunset st'. subst st'.
  destruct (launchGame_try_throws env launchConfig st Hunset)
    as [e [st1 [Htry [Hp [Hr [Ho [Hcvi Htrace]]]]]]].
  unfold launchGame.
  rewrite (bind_Return _ _ st (this st) st) by reflexivity.
  rewrite Hidle. unfold try_catch. rewrite Htry. unfold launchGame_catch.
  destruct (lc_account launchConfig) as [account |];
    [destruct (lc_version launchConfig) as [version_id |] |];
    unfold mbind, M_bind, bind, read_property, emit, effect, throw, ret;
    cbn [snd this trace]; rewrite Hp, Hr, Ho, Hcvi, Htrace;
    repeat split; try assumption.
  - eexists [_]. split; [reflexivity |]. constructor; [reflexivity | constructor].
  - exists []. split; [rewrite app_nil_r; reflexivity | constructor].
  - exists []. split; [rewrite app_nil_r; reflexivity | constructor].
Qed.

Lemma perform_never_started env st op :
  never_started st -> never_started (HCLJavaLauncher.perform env st op).
Proof.
  intros [Hp [Hr [Ho [Hcvi Ht]]]]. destruct op as [| launchConfig | |]; simpl.
  - destruct (detectJavaVersions_shape env st)
      as [found [st' [Hrun [_ [_ [_ [Sp [Sr [So [Scvi St]]]]]]]]]].
    rewrite Hrun. simpl in Sp, Sr, So, Scvi, St |- *.
    repeat split; try congruence.
    rewrite St. apply Forall_app. split; [exact Ht |].
    constructor; [reflexivity | constructor].
  - destruct (launchGame_keeps_session env launchConfig st Hr Hcvi)
      as [Lp [Lr [Lo [Lcvi [events [Lt Levents]]]]]].
    repeat split; try congruence.
    rewrite Lt. apply Forall_app. split; [exact Ht | exact Levents].
  - rewrite (stopGame_stopped env st Hr). repeat split; assumption.
  - repeat split; assumption.
Qed.

(** X17. A launcher never gets a process: from a new launcher, after any
    sequence of scans, launches, stops and buffer clearings, there is no
    process handle, [isRunning] is false, the buffer is empty and no
    process was spawned or signalled.  (No operation assigns
    [currentVersionInfo], which [spawnGameProcess] reads.) *)
Theorem launcher_never_starts_a_process :
  forall (env : Env) (ops : list HCLJavaLauncher.Operation),
    let st := HCLJavaLauncher.perform_all env ops (mkState new_launcher []) in
    gameProcess (this st) = None /\
    isRunning (this st) = false /\
    gameOutput (this st) = [] /\
    Forall (fun e => is_process_effect e = false) (trace st).
Proof.
  intros env ops. cbv zeta.
  assert (Hall : forall st0, never_started st0 ->
                 never_started (HCLJavaLauncher.perform_all env ops st0)).
  { unfold HCLJavaLauncher.perform_all.
    induction ops as [| op ops IH]; intros st0 H0; simpl; [exact H0 |].
    apply IH. apply perform_never_started. exact H0. }
  destruct (Hall (mkState new_launcher [])) as [Hp [Hr [Ho [_ Ht]]]].
  - repeat split. constructor.
  - repeat split; assumption.
Qed.


(* ================================================================== *)
(** ** Memory advice and tuning flags *)
(* ================================================================== *)

(** X18. The recommended memory grows with the memory of the machine,
    lies between 1024 and 8192 megabytes, and does not exceed the memory of
    a machine that has at least 1024 megabytes; below that the advice is
    still 1024. *)
Theorem calculateRecommendedMemory_bounds :
  forall totalmem1 totalmem2 : Z,
    totalmem1 <= totalmem2 ->
    HCLJavaLauncher.calculateRecommendedMemory totalmem1
    <= HCLJavaLauncher.calculateRecommendedMemory totalmem2 /\
    1024 <= HCLJavaLauncher.calculateRecommendedMemory totalmem1 <= 8192 /\
    (1024 <= HCLJavaLauncher.totalMemory totalmem1 ->
     HCLJavaLauncher.calculateRecommendedMemory totalmem1
     <= HCLJavaLauncher.totalMemory totalmem1) /\
    (HCLJavaLauncher.totalMemory totalmem1 < 1024 ->
     HCLJavaLauncher.calculateRecommendedMemory totalmem1 = 1024).
Proof.
  intros t1 t2 Hle.
  assert (Hmono : HCLJavaLauncher.totalMemory t1 <= HCLJavaLauncher.totalMemory t2).
  { unfold HCLJavaLauncher.totalMemory. apply Z.div_le_mono; lia. }
  unfold HCLJavaLauncher.calculateRecommendedMemory. cbv zeta.
  set (m1 := HCLJavaLauncher.totalMemory t1) in *.
  set (m2 := HCLJavaLauncher.totalMemory t2) in *.
  destruct (Z.leb_spec m1 2048); destruct (Z.leb_spec m1 4096);
    destruct (Z.leb_spec m1 8192); destruct (Z.leb_spec m1 16384);
    destruct (Z.leb_spec m2 2048); destruct (Z.leb_spec m2 4096);
    destruct (Z.leb_spec m2 8192); destruct (Z.leb_spec m2 16384);
    lia.
Qed.

Lemma calculateRecommendedMemory_bounds_witness :
  HCLJavaLauncher.calculateRecommendedMemory (8 * 1024 * 1024 * 1024)
  <= HCLJavaLauncher.calculateRecommendedMemory (32 * 1024 * 1024 * 1024) /\
  1024 <= HCLJavaLauncher.calculateRecommendedMemory (8 * 1024 * 1024 * 1024)
       <= 8192 /\
  (1024 <= HCLJavaLauncher.totalMemory (8 * 1024 * 1024 * 1024) ->
   HCLJavaLauncher.calculateRecommendedMemory (8 * 1024 * 1024 * 1024)
   <= HCLJavaLauncher.totalMemory (8 * 1024 * 1024 * 1024)) /\
  (HCLJavaLauncher.totalMemory (8 * 1024 * 1024 * 1024) < 1024 ->
   HCLJavaLauncher.calculateRecommendedMemory (8 * 1024 * 1024 * 1024) = 1024).
Proof.
  apply (calculateRecommendedMemory_bounds (8 * 1024 * 1024 * 1024)
           (32 * 1024 * 1024 * 1024)).
  lia.
Defined.


(* ================================================================== *)
(** ** The banner parser *)
(* ================================================================== *)

Lemma fold_left_scan_invariant (P : Banner -> Prop) lines : forall b,
  P b -> (forall b0 line, P b0 -> P (scan_line b0 line)) ->
  P (fold_left scan_line lines b).
Proof.
  induction lines as [| line lines IH]; intros b Hb Hstep; simpl; [exact Hb |].
  apply IH; [apply Hstep; exact Hb | exact Hstep].
Qed.

(** The version after one line: the normalised text of the match, or the
    version so far. *)
Lemma scan_line_version b line :
  b_version (scan_line b line)
  = match line_match line with
    | Some v => normalize_version v
    | None => b_version b
    end.
Proof.
  unfold scan_line, line_match. cbv zeta.
  match goal with
  | |- context [let '(_, _) := ?p in _] => destruct p as [vendor type0]
  end.
  reflexivity.
Qed.

Lemma fold_left_scan_no_match lines : forall b,
  Forall (fun l => line_match l = None) lines ->
  b_version (fold_left scan_line lines b) = b_version b.
Proof.
  induction lines as [| line lines IH]; intros b Hnone; simpl; [reflexivity |].
  inversion Hnone as [| ? ? Hline Hrest]; subst.
  rewrite IH by exact Hrest. rewrite scan_line_version, Hline. reflexivity.
Qed.

(** X20. The version of a banner is read from the last line that matches
    one of the two patterns: the normalised text of that match, as a number
    when [parseInt] reads a number other than zero from it, and no result at
    all when the normalised text is empty.  Lines before it do not
    matter. *)
Theorem parseJavaVersion_last_match :
  forall (output javaPath : string) (before after : list string)
         (line v : string),
    JS.split JS.LF output = before ++ line :: after ->
    line_match line = Some v ->
    Forall (fun l => line_match l = None) after ->
    option_map java_version (parseJavaVersion output javaPath)
    = if JS.truthy (normalize_version v)
      then Some (version_field (normalize_version v))
      else None.
Proof.
  intros output javaPath before after line v Hsplit Hmatch Hafter.
  unfold parseJavaVersion. cbv zeta. rewrite Hsplit.
  rewrite fold_left_app. cbn [fold_left].
  set (b := fold_left scan_line after _).
  assert (Hv : b_version b = normalize_version v).
  { subst b. rewrite (fold_left_scan_no_match after _ Hafter).
    rewrite scan_line_version, Hmatch. reflexivity. }
  rewrite Hv. destruct (JS.truthy (normalize_version v)); reflexivity.
Qed.

Lemma parseJavaVersion_last_match_witness :
  option_map java_version (parseJavaVersion Sample.openjdk8_banner "java")
  = if JS.truthy (normalize_version "25.301-b09, mixed mode")
    then Some (version_field (normalize_version "25.301-b09, mixed mode"))
    else None.
Proof.
  apply (parseJavaVersion_last_match Sample.openjdk8_banner "java"
           ["openjdk version " +:+ quoted "1.8.0_301";
            "OpenJDK Runtime Environment (build 1.8.0_301-b09)"]
           []
           "OpenJDK 64-Bit Server VM (build 25.301-b09, mixed mode)"
           "25.301-b09, mixed mode").
  - vm_compute. reflexivity.
  - vm_compute. reflexivity.
  - constructor.
Defined.

(** X21. An output none of whose lines matches one of the two patterns
    gives no candidate. *)
Theorem parseJavaVersion_no_match :
  forall output javaPath : string,
    Forall (fun l => line_match l = None) (JS.split JS.LF output) ->
    parseJavaVersion output javaPath = None.
Proof.
  intros output javaPath Hnone. unfold parseJavaVersion. cbv zeta.
  rewrite (fold_left_scan_no_match _ _ Hnone). reflexivity.
Qed.

Lemma parseJavaVersion_no_match_witness :
  parseJavaVersion ("sh: 1: java: not found" +:+ String JS.LF "") "java" = None.
Proof.
  apply parseJavaVersion_no_match.
  vm_compute. repeat constructor.
Defined.

Lemma scan_line_fields b line :
  (In (b_bitness b) ["64-bit"; "32-bit"] /\
   In (b_type b) ["JDK"; "JRE"] /\
   In (b_vendor b)
     [""; "OpenJDK"; "Oracle"; "Adoptium"; "Microsoft"; "Zulu";
      "Amazon Corretto"]) ->
  In (b_bitness (scan_line b line)) ["64-bit"; "32-bit"] /\
  In (b_type (scan_line b line)) ["JDK"; "JRE"] /\
  In (b_vendor (scan_line b line))
    [""; "OpenJDK"; "Oracle"; "Adoptium"; "Microsoft"; "Zulu";
     "Amazon Corretto"].
Proof.
  intros [Hb [Ht Hv]]. unfold scan_line. cbv zeta.
  repeat match goal with
         | |- context [if ?c then _ else _] => destruct c
         end;
    cbv beta iota; cbn [b_bitness b_type b_vendor In];
    repeat split; try assumption; tauto.
Qed.

(** X22. Every candidate the parser returns has the path it was asked
    about, is marked valid, and has a bitness, a type and a vendor from the
    fixed sets of the parser; the vendor is empty when no line names
    one. *)
Theorem parseJavaVersion_fields :
  forall (output javaPath : string) (j : JavaInfo),
    parseJavaVersion output javaPath = Some j ->
    java_path j = javaPath /\
    java_isValid j = true /\
    In (java_bitness j) ["64-bit"; "32-bit"] /\
    In (java_type j) ["JDK"; "JRE"] /\
    In (java_vendor j)
      [""; "OpenJDK"; "Oracle"; "Adoptium"; "Microsoft"; "Zulu";
       "Amazon Corretto"].
Proof.
  intros output javaPath j. unfold parseJavaVersion. cbv zeta.
  set (b := fold_left scan_line _ _).
  assert (Hb : In (b_bitness b) ["64-bit"; "32-bit"] /\
               In (b_type b) ["JDK"; "JRE"] /\
               In (b_vendor b)
                 [""; "OpenJDK"; "Oracle"; "Adoptium"; "Microsoft"; "Zulu";
                  "Amazon Corretto"]).
  { subst b.
    apply (fold_left_scan_invariant
             (fun b => In (b_bitness b) ["64-bit"; "32-bit"] /\
                       In (b_type b) ["JDK"; "JRE"] /\
                       In (b_vendor b)
                         [""; "OpenJDK"; "Oracle"; "Adoptium"; "Microsoft";
                          "Zulu"; "Amazon Corretto"])).
    - simpl. tauto.
    - intros b0 line. apply scan_line_fields. }
  destruct (negb (JS.truthy (b_version b))); [discriminate |].
  intros Hj. injection Hj as <-. cbn. tauto.
Qed.

Lemma parseJavaVersion_fields_witness :
  java_path Sample.java8 = "/usr/bin/java" /\
  java_isValid Sample.java8 = true /\
  In (java_bitness Sample.java8) ["64-bit"; "32-bit"] /\
  In (java_type Sample.java8) ["JDK"; "JRE"] /\
  In (java_vendor Sample.java8)
    [""; "OpenJDK"; "Oracle"; "Adoptium"; "Microsoft"; "Zulu";
     "Amazon Corretto"].
Proof.
  apply (parseJavaVersion_fields
           ("openjdk version " +:+ quoted "1.8.0_301") "/usr/bin/java").
  vm_compute. reflexivity.
Defined.

Lemma startsWith_includes s p : JS.startsWith s p = true -> JS.includes s p = true.
Proof. intros H. destruct s; simpl; rewrite H; reflexivity. Qed.

Lemma includes_tail a s p : JS.includes s p = true -> JS.includes (String a s) p = true.
Proof. intros H. simpl. rewrite H. apply orb_true_r. Qed.

Lemma startsWith_String s a p :
  JS.startsWith s (String a p) = true ->
  exists s', s = String a s' /\ JS.startsWith s' p = true.
Proof.
  destruct s as [| b s']; [discriminate |].
  change (JS.startsWith (String b s') (String a p))
    with (Ascii.eqb a b && JS.startsWith s' p).
  intros H. apply andb_true_iff in H. destruct H as [Hab Hrest].
  apply Ascii.eqb_eq in Hab. subst b. exists s'. split; [reflexivity | exact Hrest].
Qed.

(** A text that contains [adoptopenjdk] contains [openjdk]. *)
Lemma includes_adoptopenjdk s :
  JS.includes s "adoptopenjdk" = true -> JS.includes s "openjdk" = true.
Proof.
  induction s as [| a s IH]; [discriminate |].
  change (JS.includes (String a s) "adoptopenjdk")
    with (JS.startsWith (String a s) "adoptopenjdk" || JS.includes s "adoptopenjdk").
  intros H. apply orb_true_iff in H. destruct H as [Hhere | Hlater].
  - clear IH.
    repeat match goal with
           | H : JS.startsWith _ (String _ _) = true |- _ =>
               apply startsWith_String in H; destruct H as [? [-> H]]
           end.
    do 5 apply includes_tail. apply startsWith_includes. reflexivity.
  - apply includes_tail. apply IH. exact Hlater.
Qed.

Lemma scan_line_adoptium b line :
  b_vendor (scan_line b line) = "Adoptium" ->
  b_vendor b = "Adoptium" \/
  (JS.includes (JS.toLowerCase line) "adoptium" = true /\
   JS.includes (JS.toLowerCase line) "openjdk" = false).
Proof.
  unfold scan_line. cbv zeta.
  destruct (JS.includes (JS.toLowerCase line) "openjdk") eqn:Hopen;
    [cbv beta iota; cbn [b_vendor]; discriminate |].
  destruct (JS.includes (JS.toLowerCase line) "adoptopenjdk") eqn:Hadopt.
  { apply includes_adoptopenjdk in Hadopt. congruence. }
  destruct (JS.includes (JS.toLowerCase line) "adoptium") eqn:Hium.
  { intros _. right. split; reflexivity. }
  rewrite orb_false_r.
  repeat match goal with
         | |- context [if ?c then _ else _] => destruct c
         end;
    cbv beta iota; cbn [b_vendor]; intros H; try discriminate H;
    left; exact H.
Qed.

(** X23. The vendor [Adoptium] is reported only for a banner with a line
    that contains [adoptium] and not [openjdk], in any case of letters: a
    line that names AdoptOpenJDK is classified as OpenJDK, since that test
    comes first. *)
Theorem parseJavaVersion_adoptium :
  forall (output javaPath : string) (j : JavaInfo),
    parseJavaVersion output javaPath = Some j ->
    java_vendor j = "Adoptium" ->
    exists line : string,
      In line (JS.split JS.LF output) /\
      JS.includes (JS.toLowerCase line) "adoptium" = true /\
      JS.includes (JS.toLowerCase line) "openjdk" = false.
Proof.
  intros output javaPath j. unfold parseJavaVersion. cbv zeta.
  generalize (JS.split JS.LF output). intros lines.
  assert (Hinv : forall b,
            b_vendor (fold_left scan_line lines b) = "Adoptium" ->
            b_vendor b = "Adoptium" \/
            exists line, In line lines /\
              JS.includes (JS.toLowerCase line) "adoptium" = true /\
              JS.includes (JS.toLowerCase line) "openjdk" = false).
  { induction lines as [| l lines IH]; intros b Hb; simpl in Hb; [left; exact Hb |].
    destruct (IH _ Hb) as [Hhere | [line [Hin Hline]]].
    - destruct (scan_line_adoptium b l Hhere) as [Hold | Hl]; [left; exact Hold |].
      right. exists l. split; [left; reflexivity | exact Hl].
    - right. exists line. split; [right; exact Hin | exact Hline]. }
  destruct (negb (JS.truthy (b_version _))); [discriminate |].
  intros Hj Hvendor. injection Hj as <-. cbn in Hvendor.
  destruct (Hinv _ Hvendor) as [Hinit | Hline]; [discriminate Hinit | exact Hline].
Qed.

Lemma parseJavaVersion_adoptium_witness :
  exists line : string,
    In line (JS.split JS.LF
               ("java version " +:+ quoted "17" +:+ String JS.LF
                "Eclipse Adoptium Runtime")) /\
    JS.includes (JS.toLowerCase line) "adoptium" = true /\
    JS.includes (JS.toLowerCase line) "openjdk" = false.
Proof.
  apply (parseJavaVersion_adoptium
           ("java version " +:+ quoted "17" +:+ String JS.LF
            "Eclipse Adoptium Runtime")
           "java"
           (mkJavaInfo "java" (VNum 17) "Adoptium" "64-bit" "JRE" true)).
  - vm_compute. reflexivity.
  - reflexivity.
Defined.

(* ================================================================== *)
(** ** The game manager *)
(* ================================================================== *)

Lemma manager_launch_fails env launchConfig st :
  HCLGameManager.getGameDirectory env = None ->
  HCLGameManager.gm_isRunning (HCLGameManager.manager st) = false ->
  HCLGameManager.launchGame env launchConfig st
  = (Throw (TypeError "this.configManager.getGameDirectory is not a function"),
     HCLGameManager.mkGState
       (HCLGameManager.mkManager
          (HCLGameManager.gm_gameProcess (HCLGameManager.manager st)) false)
       (HCLGameManager.gtrace st)).
Proof.
  intros Hnone Hidle.
  unfold HCLGameManager.launchGame, mbind, HCLGameManager.GM_bind,
    HCLGameManager.gbind, HCLGameManager.get_manager.
  rewrite Hidle.
  unfold HCLGameManager.gcatch, HCLGameManager.game_directory.
  rewrite Hnone. reflexivity.
Qed.

(** X29. With a config manager that has no [getGameDirectory], as the one
    the application passes in, a launch on a manager that is not running
    throws the [TypeError] of that call: nothing is probed, nothing is
    spawned, the handle is kept and [isRunning] is false. *)
Theorem manager_launch_without_game_directory :
  forall (env : HCLGameManager.GEnv) (launchConfig : HCLGameManager.GameLaunch)
         (st : HCLGameManager.GState),
    HCLGameManager.getGameDirectory env = None ->
    HCLGameManager.gm_isRunning (HCLGameManager.manager st) = false ->
    let failed :=
      HCLGameManager.mkGState
        (HCLGameManager.mkManager
           (HCLGameManager.gm_gameProcess (HCLGameManager.manager st)) false)
        (HCLGameManager.gtrace st) in
    HCLGameManager.launchGame env launchConfig st
    = (Throw (TypeError "this.configManager.getGameDirectory is not a function"),
       failed) /\
    HCLGameManager.stopGame failed = (Return false, failed).
Proof.
  intros env launchConfig st Hnone Hidle. split.
  - apply manager_launch_fails; assumption.
  - destruct (HCLGameManager.gm_gameProcess (HCLGameManager.manager st));
      reflexivity.
Qed.

Lemma manager_launch_without_game_directory_witness :
  HCLGameManager.launchGame Sample2.application_env Sample2.game_launch
    Sample2.idle
  = (Throw (TypeError "this.configManager.getGameDirectory is not a function"),
     Sample2.idle).
Proof.
  exact (proj1 (manager_launch_without_game_directory Sample2.application_env
                  Sample2.game_launch Sample2.idle eq_refl eq_refl)).
Defined.

(** X30. So the manager of the application never has a process: after
    any sequence of launches and stops, a new manager is as it was, without
    a handle, not running, and with nothing probed, spawned or killed. *)
Theorem manager_never_starts_a_process :
  forall (env : HCLGameManager.GEnv) (ops : list HCLGameManager.Operation),
    HCLGameManager.getGameDirectory env = None ->
    HCLGameManager.perform_all env ops
      (HCLGameManager.mkGState HCLGameManager.new_manager [])
    = HCLGameManager.mkGState HCLGameManager.new_manager [].
Proof.
  intros env ops Hnone. unfold HCLGameManager.perform_all.
  induction ops as [| op ops IH]; [reflexivity |].
  cbn [fold_left].
  replace (HCLGameManager.perform env
             (HCLGameManager.mkGState HCLGameManager.new_manager []) op)
    with (HCLGameManager.mkGState HCLGameManager.new_manager []); [exact IH |].
  destruct op as [launchConfig |]; cbn [HCLGameManager.perform].
  - rewrite (manager_launch_fails env launchConfig
               (HCLGameManager.mkGState HCLGameManager.new_manager [])
               Hnone eq_refl).
    reflexivity.
  - reflexivity.
Qed.

Lemma manager_never_starts_a_process_witness :
  HCLGameManager.perform_all Sample2.application_env
    [HCLGameManager.op_launch Sample2.game_launch; HCLGameManager.op_stop;
     HCLGameManager.op_launch Sample2.game_launch]
    (HCLGameManager.mkGState HCLGameManager.new_manager [])
  = HCLGameManager.mkGState HCLGameManager.new_manager [].
Proof.
  exact (manager_never_starts_a_process Sample2.application_env
           [HCLGameManager.op_launch Sample2.game_launch; HCLGameManager.op_stop;
            HCLGameManager.op_launch Sample2.game_launch]
           eq_refl).
Defined.

Lemma manager_launch_run env gameDir launchConfig st output p :
  HCLGameManager.getGameDirectory env = Some gameDir ->
  HCLGameManager.gm_isRunning (HCLGameManager.manager st) = false ->
  HCLGameManager.access env (HCLGameManager.gl_javaPath launchConfig) = true ->
  HCLGameManager.version_probe env (HCLGameManager.gl_javaPath launchConfig)
  = HCLGameManager.probe_close (Some 0) output ->
  HCLGameManager.spawn_game env (HCLGameManager.gl_javaPath launchConfig)
    (game_args env gameDir launchConfig) = Some p ->
  HCLGameManager.launchGame env launchConfig st
  = (Return (HCLGameManager.mkGResult true (pid p)),
     HCLGameManager.mkGState (HCLGameManager.mkManager (Some p) true)
       (HCLGameManager.gtrace st ++
        [HCLGameManager.GSpawn (HCLGameManager.gl_javaPath launchConfig)
           ["-version"] None;
         HCLGameManager.GSpawn (HCLGameManager.gl_javaPath launchConfig)
           (game_args env gameDir launchConfig) (Some gameDir)])).
Proof.
  intros Hdir Hidle Haccess Hprobe Hspawn.
  unfold HCLGameManager.launchGame, mbind, HCLGameManager.GM_bind,
    HCLGameManager.gbind, HCLGameManager.get_manager.
  rewrite Hidle.
  unfold HCLGameManager.gcatch at 1, HCLGameManager.generateGameArgs,
    HCLGameManager.game_directory, mbind, HCLGameManager.GM_bind,
    HCLGameManager.gbind.
  rewrite Hdir. cbn [HCLGameManager.gret].
  fold (game_args env gameDir launchConfig). rewrite Hspawn.
  generalize (game_args env gameDir launchConfig). intros args.
  unfold HCLGameManager.validateJavaPath,
    HCLGameManager.gcatch, HCLGameManager.getJavaVersion, mbind,
    HCLGameManager.GM_bind, HCLGameManager.gbind.
  rewrite Haccess, Hprobe. cbn.
  rewrite <- app_assoc. reflexivity.
Qed.

(** X24. Given a config manager that answers [getGameDirectory()] (the
    one of the application does not), the game manager starts the game with
    the Java it is given once the file can be accessed and [java -version]
    exits with code 0, whatever that command prints: it spawns the probe and
    then the game in the game directory, keeps the handle and sets
    [isRunning].  The JVM arguments are passed as built, with the texts
    [${natives_directory}] and [${classpath}] in them.  A further launch is
    rejected and changes nothing. *)
Theorem manager_launch_spawns :
  forall (env : HCLGameManager.GEnv) (gameDir : string)
         (launchConfig again : HCLGameManager.GameLaunch)
         (st : HCLGameManager.GState) (output : string) (p : ChildProcess),
    HCLGameManager.getGameDirectory env = Some gameDir ->
    HCLGameManager.gm_isRunning (HCLGameManager.manager st) = false ->
    HCLGameManager.access env (HCLGameManager.gl_javaPath launchConfig) = true ->
    HCLGameManager.version_probe env (HCLGameManager.gl_javaPath launchConfig)
    = HCLGameManager.probe_close (Some 0) output ->
    HCLGameManager.spawn_game env (HCLGameManager.gl_javaPath launchConfig)
      (game_args env gameDir launchConfig) = Some p ->
    let started :=
      HCLGameManager.mkGState (HCLGameManager.mkManager (Some p) true)
        (HCLGameManager.gtrace st ++
         [HCLGameManager.GSpawn (HCLGameManager.gl_javaPath launchConfig)
            ["-version"] None;
          HCLGameManager.GSpawn (HCLGameManager.gl_javaPath launchConfig)
            (game_args env gameDir launchConfig) (Some gameDir)]) in
    HCLGameManager.launchGame env launchConfig st
    = (Return (HCLGameManager.mkGResult true (pid p)), started) /\
    drop 2 (take 7 (game_args env gameDir launchConfig))
    = ["-Djava.library.path=${natives_directory}";
       "-Dminecraft.launcher.brand=hcl";
       "-Dminecraft.launcher.version=1.0.0";
       "-cp"; "${classpath}"] /\
    HCLGameManager.launchGame env again started
    = (Throw (Error "游戏正在运行中"), started).
Proof.
  intros env gameDir launchConfig again st output p
    Hdir Hidle Haccess Hprobe Hspawn started.
  split; [exact (manager_launch_run env gameDir launchConfig st output p
                   Hdir Hidle Haccess Hprobe Hspawn) |].
  split; reflexivity.
Qed.

Lemma manager_launch_spawns_witness :
  HCLGameManager.launchGame
    (Sample2.manager_env (HCLGameManager.probe_close (Some 0) Sample.java7_banner))
    Sample2.game_launch Sample2.idle
  = (Return (HCLGameManager.mkGResult true (Some 4242)),
     HCLGameManager.mkGState
       (HCLGameManager.mkManager (Some (mkProcess (Some 4242))) true)
       [HCLGameManager.GSpawn "/usr/bin/java" ["-version"] None;
        HCLGameManager.GSpawn "/usr/bin/java"
          (game_args
             (Sample2.manager_env
                (HCLGameManager.probe_close (Some 0) Sample.java7_banner))
             "/home/steve/.minecraft" Sample2.game_launch)
          (Some "/home/steve/.minecraft")]).
Proof.
  exact (proj1 (manager_launch_spawns
                  (Sample2.manager_env
                     (HCLGameManager.probe_close (Some 0) Sample.java7_banner))
                  "/home/steve/.minecraft"
                  Sample2.game_launch Sample2.game_launch Sample2.idle
                  Sample.java7_banner (mkProcess (Some 4242))
                  eq_refl eq_refl eq_refl eq_refl eq_refl)).
Defined.



(** X26. Given a config manager that answers [getGameDirectory()]:
    [stopGame] clears [isRunning] without waiting for the process to close,
    so a new launch is accepted at once.  When the first process closes
    afterwards, its listener clears [isRunning] again: the manager then
    holds the second process as not running, and [stopGame] returns false
    without sending it a signal. *)
Theorem manager_relaunch_after_stop :
  forall (env : HCLGameManager.GEnv) (gameDir : string)
         (first second : HCLGameManager.GameLaunch)
         (st : HCLGameManager.GState) (output1 output2 : string)
         (p1 p2 : ChildProcess) (exit_code : option Z),
    HCLGameManager.getGameDirectory env = Some gameDir ->
    HCLGameManager.gm_isRunning (HCLGameManager.manager st) = false ->
    HCLGameManager.access env (HCLGameManager.gl_javaPath first) = true ->
    HCLGameManager.version_probe env (HCLGameManager.gl_javaPath first)
    = HCLGameManager.probe_close (Some 0) output1 ->
    HCLGameManager.spawn_game env (HCLGameManager.gl_javaPath first)
      (game_args env gameDir first) = Some p1 ->
    HCLGameManager.access env (HCLGameManager.gl_javaPath second) = true ->
    HCLGameManager.version_probe env (HCLGameManager.gl_javaPath second)
    = HCLGameManager.probe_close (Some 0) output2 ->
    HCLGameManager.spawn_game env (HCLGameManager.gl_javaPath second)
      (game_args env gameDir second) = Some p2 ->
    let st1 := snd (HCLGameManager.launchGame env first st) in
    let st2 := snd (HCLGameManager.stopGame st1) in
    let st3 := snd (HCLGameManager.launchGame env second st2) in
    let st4 := snd (HCLGameManager.on_close exit_code st3) in
    fst (HCLGameManager.stopGame st1) = Return true /\
    fst (HCLGameManager.launchGame env second st2)
    = Return (HCLGameManager.mkGResult true (pid p2)) /\
    HCLGameManager.manager st3 = HCLGameManager.mkManager (Some p2) true /\
    HCLGameManager.manager st4 = HCLGameManager.mkManager (Some p2) false /\
    HCLGameManager.stopGame st4 = (Return false, st4) /\
    HCLGameManager.gtrace st4
    = HCLGameManager.gtrace st ++
      [HCLGameManager.GSpawn (HCLGameManager.gl_javaPath first) ["-version"] None;
       HCLGameManager.GSpawn (HCLGameManager.gl_javaPath first)
         (game_args env gameDir first) (Some gameDir);
       HCLGameManager.GKill p1;
       HCLGameManager.GSpawn (HCLGameManager.gl_javaPath second) ["-version"] None;
       HCLGameManager.GSpawn (HCLGameManager.gl_javaPath second)
         (game_args env gameDir second) (Some gameDir);
       HCLGameManager.GEmit (HCLGameManager.gm_exit_normal exit_code)].
Proof.
  intros env gameDir first second st output1 output2 p1 p2 exit_code
    Hdir Hidle Ha1 Hp1 Hs1 Ha2 Hp2 Hs2 st1 st2 st3 st4.
  assert (H1 := manager_launch_run env gameDir first st output1 p1
                  Hdir Hidle Ha1 Hp1 Hs1).
  assert (E1 : st1 = snd (HCLGameManager.launchGame env first st)) by reflexivity.
  rewrite H1 in E1. cbn [snd] in E1.
  assert (E2 : HCLGameManager.stopGame st1
               = (Return true,
                  HCLGameManager.mkGState (HCLGameManager.mkManager (Some p1) false)
                    (HCLGameManager.gtrace st1 ++ [HCLGameManager.GKill p1]))).
  { rewrite E1. reflexivity. }
  assert (E2' : st2 = HCLGameManager.mkGState
                        (HCLGameManager.mkManager (Some p1) false)
                        (HCLGameManager.gtrace st1 ++ [HCLGameManager.GKill p1])).
  { subst st2. rewrite E2. reflexivity. }
  assert (H3 := manager_launch_run env gameDir second st2 output2 p2 Hdir).
  rewrite E2' in H3 at 1. specialize (H3 eq_refl Ha2 Hp2 Hs2).
  assert (E3 : st3 = snd (HCLGameManager.launchGame env second st2)) by reflexivity.
  rewrite H3 in E3. cbn [snd] in E3.
  assert (E4 : st4 = HCLGameManager.mkGState
                       (HCLGameManager.mkManager (Some p2) false)
                       (HCLGameManager.gtrace st3 ++
                        [HCLGameManager.GEmit
                           (HCLGameManager.gm_exit_normal exit_code)])).
  { subst st4. rewrite E3. reflexivity. }
  split; [rewrite E2; reflexivity |].
  split; [rewrite H3; reflexivity |].
  split; [rewrite E3; reflexivity |].
  split; [rewrite E4; reflexivity |].
  split; [rewrite E4; reflexivity |].
  rewrite E4, E3, E2', E1. cbn [HCLGameManager.gtrace].
  repeat rewrite <- app_assoc. reflexivity.
Qed.

Lemma manager_relaunch_after_stop_witness :
  HCLGameManager.stopGame
    (snd (HCLGameManager.on_close (Some 0)
       (snd (HCLGameManager.launchGame
               (Sample2.manager_env
                  (HCLGameManager.probe_close (Some 0) Sample.openjdk8_banner))
               Sample2.game_launch
          (snd (HCLGameManager.stopGame
             (snd (HCLGameManager.launchGame
                     (Sample2.manager_env
                        (HCLGameManager.probe_close (Some 0)
                           Sample.openjdk8_banner))
                     Sample2.game_launch Sample2.idle))))))))
  = (Return false,
     snd (HCLGameManager.on_close (Some 0)
       (snd (HCLGameManager.launchGame
               (Sample2.manager_env
                  (HCLGameManager.probe_close (Some 0) Sample.openjdk8_banner))
               Sample2.game_launch
          (snd (HCLGameManager.stopGame
             (snd (HCLGameManager.launchGame
                     (Sample2.manager_env
                        (HCLGameManager.probe_close (Some 0)
                           Sample.openjdk8_banner))
                     Sample2.game_launch Sample2.idle)))))))).
Proof.
  exact (proj1 (proj2 (proj2 (proj2 (proj2
           (manager_relaunch_after_stop
              (Sample2.manager_env
                 (HCLGameManager.probe_close (Some 0) Sample.openjdk8_banner))
              "/home/steve/.minecraft"
              Sample2.game_launch Sample2.game_launch Sample2.idle
              Sample.openjdk8_banner Sample.openjdk8_banner
              (mkProcess (Some 4242)) (mkProcess (Some 4242)) (Some 0)
              eq_refl eq_refl eq_refl eq_refl eq_refl eq_refl eq_refl eq_refl)))))).
Defined.
